(** * Rustdoc artifacts of the [tweetr] documentation build

    The repository holds three generated JavaScript files:

    - [implementors/core/iter/iterator/trait.Iterator.js], which carries two
      implementor-listing scripts (the implementors of [Iterator] and of
      [Add]);
    - [implementors/rustc_serialize/serialize/trait.Encodable.js], one
      implementor-listing script;
    - [tweetr/util/sidebar-items.js], one call of [initSidebarItems].

    An implementor-listing script builds a local object [implementors], one
    property per crate, each an array of HTML strings, and then hands the
    object to the page: it calls [window.register_implementors] when that
    property is truthy and stores the object in
    [window.pending_implementors] otherwise.

    The development embeds the JavaScript values the scripts build, the
    window object they read and write, and the scripts themselves as
    functions from a window to an outcome.  The functions a script calls
    ([register_implementors], [initSidebarItems]) are the page's: they are
    a parameter of every run, and what is proved of a run holds for every
    page. *)

From Stdlib Require Import String Ascii List ZArith Bool.
From stdpp Require Import base option strings gmap.
Import ListNotations.
Local Open Scope list_scope.

(** ** Strings *)

Module Str.

(** [contains needle hay]: [hay.indexOf(needle) >= 0]. *)
Fixpoint contains (needle hay : string) : bool :=
  String.prefix needle hay ||
  match hay with
  | EmptyString => false
  | String _ rest => contains needle rest
  end.

(** The part of [s] before the first occurrence of the character [c]
    (all of [s] when [c] does not occur). *)
Fixpoint before (c : ascii) (s : string) : string :=
  match s with
  | EmptyString => EmptyString
  | String a rest => if Ascii.eqb a c then EmptyString else String a (before c rest)
  end.

(** The part of [s] after the last occurrence of the character [c]
    (all of [s] when [c] does not occur). *)
Fixpoint after_last (c : ascii) (s : string) : string :=
  match s with
  | EmptyString => EmptyString
  | String a rest =>
      if contains (String c EmptyString) rest then after_last c rest
      else if Ascii.eqb a c then rest
      else s
  end.

End Str.

(** ** JavaScript values *)

Module Js.

#[local] Set Warnings "-register-all".

(** The values a window property can hold.  Objects and arrays are kept by
    structure; an object is the list of its own properties in insertion
    order.  A number is an integer or [NaN]: the scripts only ever test a
    value for truth.  A function object is named, its body belongs to the
    page. *)
Inductive value : Type :=
| VUndefined
| VNull
| VBool (b : bool)
| VNum (n : Z)
| VNaN
| VStr (s : string)
| VArr (elems : list value)
| VObj (props : list (string * value))
| VFun (name : string).

(** ECMAScript [ToBoolean]: what [if (v)] tests. *)
Definition ToBoolean (v : value) : bool :=
  match v with
  | VUndefined | VNull | VNaN => false
  | VBool b => b
  | VNum n => negb (n =? 0)%Z
  | VStr s => negb (String.eqb s "")
  | VArr _ | VObj _ | VFun _ => true
  end.

(** ECMAScript [IsCallable]. *)
Definition IsCallable (v : value) : bool :=
  match v with
  | VFun _ => true
  | _ => false
  end.

(** [v !== undefined]. *)
Definition is_defined (v : value) : bool :=
  match v with
  | VUndefined => false
  | _ => true
  end.

Fixpoint assoc_get (k : string) (props : list (string * value)) : value :=
  match props with
  | [] => VUndefined
  | (k', v) :: rest => if String.eqb k' k then v else assoc_get k rest
  end.

Fixpoint assoc_set (k : string) (v : value) (props : list (string * value))
  : list (string * value) :=
  match props with
  | [] => [(k, v)]
  | (k', v') :: rest =>
      if String.eqb k' k then (k, v) :: rest else (k', v') :: assoc_set k v rest
  end.

(** [o[k]] for an own property [k] of the object [o].  A key of which [o]
    has no own property reads [undefined] here: what an object inherits
    from its prototype ([constructor], [toString], ...) is not modelled,
    and the properties below that read a key never assigned say so. *)
Definition get_prop (o : value) (k : string) : value :=
  match o with
  | VObj props => assoc_get k props
  | _ => VUndefined
  end.

(** [o[k] = v] on an object the script built: it creates the own property
    [k], after those the object has, or overwrites it.  JavaScript treats
    two kinds of key otherwise, and the properties below that depend on it
    exclude them: [__proto__] names the prototype and creates no property,
    and keys that are array indices are listed before the others. *)
Definition set_prop (o : value) (k : string) (v : value) : value :=
  match o with
  | VObj props => VObj (assoc_set k v props)
  | _ => o
  end.

(** [Object.keys(o)], for an object whose keys are none of the two kinds
    [set_prop] names. *)
Definition own_keys (o : value) : list string :=
  match o with
  | VObj props => map fst props
  | _ => []
  end.

(** The elements of an array value. *)
Definition elements (v : value) : list value :=
  match v with
  | VArr l => l
  | _ => []
  end.

End Js.
Export Js.

(** ** The window and what a script does to it *)

(** [window.prop]: a property the window lacks reads as [undefined]. *)
Definition window_get (w : gmap string value) (prop : string) : value :=
  default VUndefined (w !! prop).

(** What a script does that the page can observe: it calls a function of
    the page, or it writes a property of the window. *)
Inductive event : Type :=
| Call (callee : value) (args : list value)
| Write (prop : string) (v : value).

(** How a run ends: normally, with an error of the engine, or with what
    a function of the page threw. *)
Variant completion : Type :=
| Normal
| TypeError
| ReferenceError
| Thrown (exception : value).

Record outcome : Type := Outcome {
  final : gmap string value;
  trace : list event;
  result : completion
}.

(** The page behind the window: what the function named [name] does when
    it is called with [args] in the window [w], that is the window it
    leaves and how it completes (it may write any property and it may
    throw).  The functions are the page's, not the repository's. *)
Definition page : Type :=
  string → list value → gmap string value → gmap string value * completion.

(** [f(args)]: calling what is not a function throws [TypeError] before
    anything happens; calling a function runs it, and the run goes on as
    the function completes, in the window the function leaves. *)
Definition call (host : page) (f : value) (args : list value) (w : gmap string value)
  : outcome :=
  match f with
  | VFun name =>
      {| final := (host name args w).1;
         trace := [Call f args];
         result := (host name args w).2 |}
  | _ => {| final := w; trace := []; result := TypeError |}
  end.

(** [name(args)] for a global identifier: an unbound identifier throws
    [ReferenceError]. *)
Definition call_global (host : page) (name : string) (args : list value)
    (w : gmap string value) : outcome :=
  match w !! name with
  | None => {| final := w; trace := []; result := ReferenceError |}
  | Some f => call host f args w
  end.

(** The tail of every implementor-listing script:
<<
    if (window.register_implementors) {
        window.register_implementors(implementors);
    } else {
        window.pending_implementors = implementors;
    }
>> *)
Definition register (host : page) (implementors : value) (w : gmap string value)
  : outcome :=
  if ToBoolean (window_get w "register_implementors")
  then call host (window_get w "register_implementors") [implementors] w
  else {| final := <["pending_implementors" := implementors]> w;
          trace := [Write "pending_implementors" implementors];
          result := Normal |}.

(** The calls and the writes of a trace. *)
Definition calls (t : list event) : list (value * list value) :=
  flat_map (fun e => match e with Call f a => [(f, a)] | Write _ _ => [] end) t.

Definition writes (t : list event) : list (string * value) :=
  flat_map (fun e => match e with Write p v => [(p, v)] | Call _ _ => [] end) t.

(** ** The HTML of an implementor entry *)

Module Markup.

(** An entry of an implementor table is a string of HTML.  It is kept here
    as the sequence of its pieces: text (entities left as written), an
    anchor [<a class=.. href=.. title=..>text</a>] (rustdoc omits the title
    of a primitive type), the opening and closing tag of a [span], and
    [<br>]. *)
Inductive markup : Type :=
| Text (s : string)
| Anchor (class href : string) (title : option string) (text : string)
| SpanOpen (class : string)
| SpanClose
| Br.

Definition entry : Type := list markup.

(** One script's table as the script writes it: the quote character of its
    HTML attributes and the assignments [implementors[crate] = [...]]. *)
Record listing : Type := Listing {
  quote : ascii;
  assignments : list (string * list entry)
}.

Definition attr (q : ascii) (name val : string) : string :=
  " " +:+ name +:+ "=" +:+ String q (val +:+ String q "").

Definition render_markup (q : ascii) (m : markup) : string :=
  match m with
  | Text s => s
  | Anchor c h t x =>
      "<a" +:+ attr q "class" c +:+ attr q "href" h +:+
      match t with Some t => attr q "title" t | None => "" end +:+
      ">" +:+ x +:+ "</a>"
  | SpanOpen c => "<span" +:+ attr q "class" c +:+ ">"
  | SpanClose => "</span>"
  | Br => "<br>"
  end.

(** The string an entry stands for. *)
Definition render (q : ascii) (e : entry) : string :=
  fold_right (fun m s => render_markup q m +:+ s) "" e.

(** The text of a string as a JavaScript literal in double quotes. *)
Fixpoint js_escape (s : string) : string :=
  match s with
  | EmptyString => EmptyString
  | String c rest =>
      if Ascii.eqb c "034"%char
      then String "\"%char (String c (js_escape rest))
      else String c (js_escape rest)
  end.

Definition js_literal (s : string) : string :=
  String "034"%char (js_escape s +:+ String "034"%char "").

(** The source text of one assignment, as the generated script has it
    (every element is followed by a comma). *)
Definition assignment_source (q : ascii) (a : string * list entry) : string :=
  "implementors[" +:+ js_literal a.1 +:+ "] = [" +:+
  fold_right (fun e s => js_literal (render q e) +:+ "," +:+ s) "" a.2 +:+ "];".

(** The titles of the anchors of an entry: the symbols it refers to. *)
Definition titles (e : entry) : list string :=
  flat_map (fun m => match m with Anchor _ _ (Some t) _ => [t] | _ => [] end) e.

(** What follows the text piece that holds the word [for] of
    [impl Trait for Type]. *)
Fixpoint after_for (e : entry) : entry :=
  match e with
  | [] => []
  | Text s :: rest => if Str.contains " for " s then rest else after_for rest
  | _ :: rest => after_for rest
  end.

(** A title is a Rust path, after the item kind when rustdoc wrote one
    ([struct chrono::Weekday] and plain [vec_map::Iter] both occur). *)
Definition path_of_title (t : string) : string := Str.after_last " " t.

(** The crate of a path: its first segment. *)
Definition crate_of (path : string) : string := Str.before ":" path.

(** The path of the implementing type of an entry: the first symbol after
    [for]. *)
Definition implementing_type (e : entry) : option string :=
  path_of_title <$> head (titles (after_for e)).

End Markup.
Export Markup.

(** ** The implementor tables, as generated *)

(** First script of [implementors/core/iter/iterator/trait.Iterator.js]:
    the implementors of [core::iter::iterator::Iterator]. *)
Module Iterator.

(** The array assigned to the property [vec_map] of [implementors]. *)
Definition vec_map : list entry :=
  [ [ Text "impl&lt;'a,&nbsp;V&gt; ";
      Anchor "trait" "https://doc.rust-lang.org/nightly/core/iter/iterator/trait.Iterator.html" (Some "core::iter::iterator::Iterator") "Iterator";
      Text " for ";
      Anchor "struct" "vec_map/struct.Iter.html" (Some "vec_map::Iter") "Iter";
      Text "&lt;'a,&nbsp;V&gt;" ];
    [ Text "impl&lt;'a,&nbsp;V&gt; ";
      Anchor "trait" "https://doc.rust-lang.org/nightly/core/iter/iterator/trait.Iterator.html" (Some "core::iter::iterator::Iterator") "Iterator";
      Text " for ";
      Anchor "struct" "vec_map/struct.IterMut.html" (Some "vec_map::IterMut") "IterMut";
      Text "&lt;'a,&nbsp;V&gt;" ];
    [ Text "impl&lt;'a,&nbsp;V&gt; ";
      Anchor "trait" "https://doc.rust-lang.org/nightly/core/iter/iterator/trait.Iterator.html" (Some "core::iter::iterator::Iterator") "Iterator";
      Text " for ";
      Anchor "struct" "vec_map/struct.Drain.html" (Some "vec_map::Drain") "Drain";
      Text "&lt;'a,&nbsp;V&gt;" ];
    [ Text "impl&lt;'a,&nbsp;V&gt; ";
      Anchor "trait" "https://doc.rust-lang.org/nightly/core/iter/iterator/trait.Iterator.html" (Some "core::iter::iterator::Iterator") "Iterator";
      Text " for ";
      Anchor "struct" "vec_map/struct.Keys.html" (Some "vec_map::Keys") "Keys";
      Text "&lt;'a,&nbsp;V&gt;" ];
    [ Text "impl&lt;'a,&nbsp;V&gt; ";
      Anchor "trait" "https://doc.rust-lang.org/nightly/core/iter/iterator/trait.Iterator.html" (Some "core::iter::iterator::Iterator") "Iterator";
      Text " for ";
      Anchor "struct" "vec_map/struct.Values.html" (Some "vec_map::Values") "Values";
      Text "&lt;'a,&nbsp;V&gt;" ];
    [ Text "impl&lt;V&gt; ";
      Anchor "trait" "https://doc.rust-lang.org/nightly/core/iter/iterator/trait.Iterator.html" (Some "core::iter::iterator::Iterator") "Iterator";
      Text " for ";
      Anchor "struct" "vec_map/struct.IntoIter.html" (Some "vec_map::IntoIter") "IntoIter";
      Text "&lt;V&gt;" ]
  ].

(** The array assigned to the property [lazy_static] of [implementors]. *)
Definition lazy_static : list entry := [].

(** The array assigned to the property [unicode_normalization] of [implementors]. *)
Definition unicode_normalization : list entry :=
  [ [ Text "impl&lt;I:&nbsp;";
      Anchor "trait" "https://doc.rust-lang.org/nightly/core/iter/iterator/trait.Iterator.html" (Some "core::iter::iterator::Iterator") "Iterator";
      Text "&lt;Item=";
      Anchor "primitive" "https://doc.rust-lang.org/nightly/std/primitive.char.html" None "char";
      Text "&gt;&gt; ";
      Anchor "trait" "https://doc.rust-lang.org/nightly/core/iter/iterator/trait.Iterator.html" (Some "core::iter::iterator::Iterator") "Iterator";
      Text " for ";
      Anchor "struct" "unicode_normalization/struct.Decompositions.html" (Some "unicode_normalization::Decompositions") "Decompositions";
      Text "&lt;I&gt;" ];
    [ Text "impl&lt;I:&nbsp;";
      Anchor "trait" "https://doc.rust-lang.org/nightly/core/iter/iterator/trait.Iterator.html" (Some "core::iter::iterator::Iterator") "Iterator";
      Text "&lt;Item=";
      Anchor "primitive" "https://doc.rust-lang.org/nightly/std/primitive.char.html" None "char";
      Text "&gt;&gt; ";
      Anchor "trait" "https://doc.rust-lang.org/nightly/core/iter/iterator/trait.Iterator.html" (Some "core::iter::iterator::Iterator") "Iterator";
      Text " for ";
      Anchor "struct" "unicode_normalization/struct.Recompositions.html" (Some "unicode_normalization::Recompositions") "Recompositions";
      Text "&lt;I&gt;" ]
  ].

(** The array assigned to the property [num_iter] of [implementors]. *)
Definition num_iter : list entry :=
  [ [ Text "impl&lt;A&gt; ";
      Anchor "trait" "https://doc.rust-lang.org/nightly/core/iter/iterator/trait.Iterator.html" (Some "core::iter::iterator::Iterator") "Iterator";
      Text " for ";
      Anchor "struct" "num_iter/struct.Range.html" (Some "num_iter::Range") "Range";
      Text "&lt;A&gt; ";
      SpanOpen "where";
      Text "where A: ";
      Anchor "trait" "https://doc.rust-lang.org/nightly/core/ops/trait.Add.html" (Some "core::ops::Add") "Add";
      Text "&lt;A,&nbsp;Output=A&gt; + ";
      Anchor "trait" "https://doc.rust-lang.org/nightly/core/cmp/trait.PartialOrd.html" (Some "core::cmp::PartialOrd") "PartialOrd";
      Text " + ";
      Anchor "trait" "https://doc.rust-lang.org/nightly/core/clone/trait.Clone.html" (Some "core::clone::Clone") "Clone";
      Text " + ";
      Anchor "trait" "num_traits/cast/trait.ToPrimitive.html" (Some "num_traits::cast::ToPrimitive") "ToPrimitive";
      SpanClose ];
    [ Text "impl&lt;A&gt; ";
      Anchor "trait" "https://doc.rust-lang.org/nightly/core/iter/iterator/trait.Iterator.html" (Some "core::iter::iterator::Iterator") "Iterator";
      Text " for ";
      Anchor "struct" "num_iter/struct.RangeInclusive.html" (Some "num_iter::RangeInclusive") "RangeInclusive";
      Text "&lt;A&gt; ";
      SpanOpen "where";
      Text "where A: ";
      Anchor "trait" "https://doc.rust-lang.org/nightly/core/ops/trait.Add.html" (Some "core::ops::Add") "Add";
      Text "&lt;A,&nbsp;Output=A&gt; + ";
      Anchor "trait" "https://doc.rust-lang.org/nightly/core/cmp/trait.PartialOrd.html" (Some "core::cmp::PartialOrd") "PartialOrd";
      Text " + ";
      Anchor "trait" "https://doc.rust-lang.org/nightly/core/clone/trait.Clone.html" (Some "core::clone::Clone") "Clone";
      Text " + ";
      Anchor "trait" "num_traits/cast/trait.ToPrimitive.html" (Some "num_traits::cast::ToPrimitive") "ToPrimitive";
      SpanClose ];
    [ Text "impl&lt;A&gt; ";
      Anchor "trait" "https://doc.rust-lang.org/nightly/core/iter/iterator/trait.Iterator.html" (Some "core::iter::iterator::Iterator") "Iterator";
      Text " for ";
      Anchor "struct" "num_iter/struct.RangeStep.html" (Some "num_iter::RangeStep") "RangeStep";
      Text "&lt;A&gt; ";
      SpanOpen "where";
      Text "where A: ";
      Anchor "trait" "num_traits/ops/checked/trait.CheckedAdd.html" (Some "num_traits::ops::checked::CheckedAdd") "CheckedAdd";
      Text " + ";
      Anchor "trait" "https://doc.rust-lang.org/nightly/core/cmp/trait.PartialOrd.html" (Some "core::cmp::PartialOrd") "PartialOrd";
      Text " + ";
      Anchor "trait" "https://doc.rust-lang.org/nightly/core/clone/trait.Clone.html" (Some "core::clone::Clone") "Clone";
      SpanClose ];
    [ Text "impl&lt;A&gt; ";
      Anchor "trait" "https://doc.rust-lang.org/nightly/core/iter/iterator/trait.Iterator.html" (Some "core::iter::iterator::Iterator") "Iterator";
      Text " for ";
      Anchor "struct" "num_iter/struct.RangeStepInclusive.html" (Some "num_iter::RangeStepInclusive") "RangeStepInclusive";
      Text "&lt;A&gt; ";
      SpanOpen "where";
      Text "where A: ";
      Anchor "trait" "num_traits/ops/checked/trait.CheckedAdd.html" (Some "num_traits::ops::checked::CheckedAdd") "CheckedAdd";
      Text " + ";
      Anchor "trait" "https://doc.rust-lang.org/nightly/core/cmp/trait.PartialOrd.html" (Some "core::cmp::PartialOrd") "PartialOrd";
      Text " + ";
      Anchor "trait" "https://doc.rust-lang.org/nightly/core/clone/trait.Clone.html" (Some "core::clone::Clone") "Clone";
      Text " + ";
      Anchor "trait" "https://doc.rust-lang.org/nightly/core/cmp/trait.PartialEq.html" (Some "core::cmp::PartialEq") "PartialEq";
      SpanClose ]
  ].

(** The array assigned to the property [libc] of [implementors]. *)
Definition libc : list entry := [].

(** The array assigned to the property [rustc_serialize] of [implementors]. *)
Definition rustc_serialize : list entry :=
  [ [ Text "impl&lt;T:&nbsp;";
      Anchor "trait" "https://doc.rust-lang.org/nightly/core/iter/iterator/trait.Iterator.html" (Some "core::iter::iterator::Iterator") "Iterator";
      Text "&lt;Item=";
      Anchor "primitive" "https://doc.rust-lang.org/nightly/std/primitive.char.html" None "char";
      Text "&gt;&gt; ";
      Anchor "trait" "https://doc.rust-lang.org/nightly/core/iter/iterator/trait.Iterator.html" (Some "core::iter::iterator::Iterator") "Iterator";
      Text " for ";
      Anchor "struct" "rustc_serialize/json/struct.Parser.html" (Some "rustc_serialize::json::Parser") "Parser";
      Text "&lt;T&gt;" ]
  ].

(** The array assigned to the property [solicit] of [implementors]. *)
Definition solicit : list entry :=
  [ [ Text "impl&lt;'a,&nbsp;S&gt; ";
      Anchor "trait" "https://doc.rust-lang.org/nightly/core/iter/iterator/trait.Iterator.html" (Some "core::iter::iterator::Iterator") "Iterator";
      Text " for ";
      Anchor "struct" "solicit/http/session/struct.StreamIter.html" (Some "solicit::http::session::StreamIter") "StreamIter";
      Text "&lt;'a,&nbsp;S&gt; ";
      SpanOpen "where";
      Text "where S: ";
      Anchor "trait" "solicit/http/session/trait.Stream.html" (Some "solicit::http::session::Stream") "Stream";
      Text " + 'a";
      SpanClose ]
  ].

(** The array assigned to the property [url] of [implementors]. *)
Definition url : list entry :=
  [ [ Text "impl ";
      Anchor "trait" "https://doc.rust-lang.org/nightly/core/iter/iterator/trait.Iterator.html" (Some "core::iter::iterator::Iterator") "Iterator";
      Text " for ";
      Anchor "struct" "url/struct.SocketAddrs.html" (Some "url::SocketAddrs") "SocketAddrs" ];
    [ Text "impl&lt;'a&gt; ";
      Anchor "trait" "https://doc.rust-lang.org/nightly/core/iter/iterator/trait.Iterator.html" (Some "core::iter::iterator::Iterator") "Iterator";
      Text " for ";
      Anchor "struct" "url/form_urlencoded/struct.Parse.html" (Some "url::form_urlencoded::Parse") "Parse";
      Text "&lt;'a&gt;" ];
    [ Text "impl&lt;'a&gt; ";
      Anchor "trait" "https://doc.rust-lang.org/nightly/core/iter/iterator/trait.Iterator.html" (Some "core::iter::iterator::Iterator") "Iterator";
      Text " for ";
      Anchor "struct" "url/form_urlencoded/struct.ParseIntoOwned.html" (Some "url::form_urlencoded::ParseIntoOwned") "ParseIntoOwned";
      Text "&lt;'a&gt;" ];
    [ Text "impl&lt;'a&gt; ";
      Anchor "trait" "https://doc.rust-lang.org/nightly/core/iter/iterator/trait.Iterator.html" (Some "core::iter::iterator::Iterator") "Iterator";
      Text " for ";
      Anchor "struct" "url/form_urlencoded/struct.ByteSerialize.html" (Some "url::form_urlencoded::ByteSerialize") "ByteSerialize";
      Text "&lt;'a&gt;" ];
    [ Text "impl&lt;'a,&nbsp;E:&nbsp;";
      Anchor "trait" "url/percent_encoding/trait.EncodeSet.html" (Some "url::percent_encoding::EncodeSet") "EncodeSet";
      Text "&gt; ";
      Anchor "trait" "https://doc.rust-lang.org/nightly/core/iter/iterator/trait.Iterator.html" (Some "core::iter::iterator::Iterator") "Iterator";
      Text " for ";
      Anchor "struct" "url/percent_encoding/struct.PercentEncode.html" (Some "url::percent_encoding::PercentEncode") "PercentEncode";
      Text "&lt;'a,&nbsp;E&gt;" ];
    [ Text "impl&lt;'a&gt; ";
      Anchor "trait" "https://doc.rust-lang.org/nightly/core/iter/iterator/trait.Iterator.html" (Some "core::iter::iterator::Iterator") "Iterator";
      Text " for ";
      Anchor "struct" "url/percent_encoding/struct.PercentDecode.html" (Some "url::percent_encoding::PercentDecode") "PercentDecode";
      Text "&lt;'a&gt;" ]
  ].

(** The array assigned to the property [rand] of [implementors]. *)
Definition rand : list entry :=
  [ [ Text "impl&lt;'a,&nbsp;T:&nbsp;";
      Anchor "trait" "rand/trait.Rand.html" (Some "rand::Rand") "Rand";
      Text ",&nbsp;R:&nbsp;";
      Anchor "trait" "rand/trait.Rng.html" (Some "rand::Rng") "Rng";
      Text "&gt; ";
      Anchor "trait" "https://doc.rust-lang.org/nightly/core/iter/iterator/trait.Iterator.html" (Some "core::iter::iterator::Iterator") "Iterator";
      Text " for ";
      Anchor "struct" "rand/struct.Generator.html" (Some "rand::Generator") "Generator";
      Text "&lt;'a,&nbsp;T,&nbsp;R&gt;" ];
    [ Text "impl&lt;'a,&nbsp;R:&nbsp;";
      Anchor "trait" "rand/trait.Rng.html" (Some "rand::Rng") "Rng";
      Text "&gt; ";
      Anchor "trait" "https://doc.rust-lang.org/nightly/core/iter/iterator/trait.Iterator.html" (Some "core::iter::iterator::Iterator") "Iterator";
      Text " for ";
      Anchor "struct" "rand/struct.AsciiGenerator.html" (Some "rand::AsciiGenerator") "AsciiGenerator";
      Text "&lt;'a,&nbsp;R&gt;" ]
  ].

(** The array assigned to the property [openssl] of [implementors]. *)
Definition openssl : list entry :=
  [ [ Text "impl ";
      Anchor "trait" "https://doc.rust-lang.org/nightly/core/iter/iterator/trait.Iterator.html" (Some "core::iter::iterator::Iterator") "Iterator";
      Text " for ";
      Anchor "struct" "https://doc.rust-lang.org/nightly/std/ascii/struct.EscapeDefault.html" (Some "std::ascii::EscapeDefault") "EscapeDefault" ];
    [ Text "impl&lt;'a,&nbsp;K,&nbsp;V&gt; ";
      Anchor "trait" "https://doc.rust-lang.org/nightly/core/iter/iterator/trait.Iterator.html" (Some "core::iter::iterator::Iterator") "Iterator";
      Text " for ";
      Anchor "struct" "https://doc.rust-lang.org/nightly/std/collections/hash/map/struct.Iter.html" (Some "std::collections::hash::map::Iter") "Iter";
      Text "&lt;'a,&nbsp;K,&nbsp;V&gt;" ];
    [ Text "impl&lt;'a,&nbsp;K,&nbsp;V&gt; ";
      Anchor "trait" "https://doc.rust-lang.org/nightly/core/iter/iterator/trait.Iterator.html" (Some "core::iter::iterator::Iterator") "Iterator";
      Text " for ";
      Anchor "struct" "https://doc.rust-lang.org/nightly/std/collections/hash/map/struct.IterMut.html" (Some "std::collections::hash::map::IterMut") "IterMut";
      Text "&lt;'a,&nbsp;K,&nbsp;V&gt;" ];
    [ Text "impl&lt;K,&nbsp;V&gt; ";
      Anchor "trait" "https://doc.rust-lang.org/nightly/core/iter/iterator/trait.Iterator.html" (Some "core::iter::iterator::Iterator") "Iterator";
      Text " for ";
      Anchor "struct" "https://doc.rust-lang.org/nightly/std/collections/hash/map/struct.IntoIter.html" (Some "std::collections::hash::map::IntoIter") "IntoIter";
      Text "&lt;K,&nbsp;V&gt;" ];
    [ Text "impl&lt;'a,&nbsp;K,&nbsp;V&gt; ";
      Anchor "trait" "https://doc.rust-lang.org/nightly/core/iter/iterator/trait.Iterator.html" (Some "core::iter::iterator::Iterator") "Iterator";
      Text " for ";
      Anchor "struct" "https://doc.rust-lang.org/nightly/std/collections/hash/map/struct.Keys.html" (Some "std::collections::hash::map::Keys") "Keys";
      Text "&lt;'a,&nbsp;K,&nbsp;V&gt;" ];
    [ Text "impl&lt;'a,&nbsp;K,&nbsp;V&gt; ";
      Anchor "trait" "https://doc.rust-lang.org/nightly/core/iter/iterator/trait.Iterator.html" (Some "core::iter::iterator::Iterator") "Iterator";
      Text " for ";
      Anchor "struct" "https://doc.rust-lang.org/nightly/std/collections/hash/map/struct.Values.html" (Some "std::collections::hash::map::Values") "Values";
      Text "&lt;'a,&nbsp;K,&nbsp;V&gt;" ];
    [ Text "impl&lt;'a,&nbsp;K,&nbsp;V&gt; ";
      Anchor "trait" "https://doc.rust-lang.org/nightly/core/iter/iterator/trait.Iterator.html" (Some "core::iter::iterator::Iterator") "Iterator";
      Text " for ";
      Anchor "struct" "https://doc.rust-lang.org/nightly/std/collections/hash/map/struct.ValuesMut.html" (Some "std::collections::hash::map::ValuesMut") "ValuesMut";
      Text "&lt;'a,&nbsp;K,&nbsp;V&gt;" ];
    [ Text "impl&lt;'a,&nbsp;K,&nbsp;V&gt; ";
      Anchor "trait" "https://doc.rust-lang.org/nightly/core/iter/iterator/trait.Iterator.html" (Some "core::iter::iterator::Iterator") "Iterator";
      Text " for ";
      Anchor "struct" "https://doc.rust-lang.org/nightly/std/collections/hash/map/struct.Drain.html" (Some "std::collections::hash::map::Drain") "Drain";
      Text "&lt;'a,&nbsp;K,&nbsp;V&gt;" ];
    [ Text "impl&lt;'a,&nbsp;K&gt; ";
      Anchor "trait" "https://doc.rust-lang.org/nightly/core/iter/iterator/trait.Iterator.html" (Some "core::iter::iterator::Iterator") "Iterator";
      Text " for ";
      Anchor "struct" "https://doc.rust-lang.org/nightly/std/collections/hash/set/struct.Iter.html" (Some "std::collections::hash::set::Iter") "Iter";
      Text "&lt;'a,&nbsp;K&gt;" ];
    [ Text "impl&lt;K&gt; ";
      Anchor "trait" "https://doc.rust-lang.org/nightly/core/iter/iterator/trait.Iterator.html" (Some "core::iter::iterator::Iterator") "Iterator";
      Text " for ";
      Anchor "struct" "https://doc.rust-lang.org/nightly/std/collections/hash/set/struct.IntoIter.html" (Some "std::collections::hash::set::IntoIter") "IntoIter";
      Text "&lt;K&gt;" ];
    [ Text "impl&lt;'a,&nbsp;K&gt; ";
      Anchor "trait" "https://doc.rust-lang.org/nightly/core/iter/iterator/trait.Iterator.html" (Some "core::iter::iterator::Iterator") "Iterator";
      Text " for ";
      Anchor "struct" "https://doc.rust-lang.org/nightly/std/collections/hash/set/struct.Drain.html" (Some "std::collections::hash::set::Drain") "Drain";
      Text "&lt;'a,&nbsp;K&gt;" ];
    [ Text "impl&lt;'a,&nbsp;T,&nbsp;S&gt; ";
      Anchor "trait" "https://doc.rust-lang.org/nightly/core/iter/iterator/trait.Iterator.html" (Some "core::iter::iterator::Iterator") "Iterator";
      Text " for ";
      Anchor "struct" "https://doc.rust-lang.org/nightly/std/collections/hash/set/struct.Intersection.html" (Some "std::collections::hash::set::Intersection") "Intersection";
      Text "&lt;'a,&nbsp;T,&nbsp;S&gt; ";
      SpanOpen "where";
      Text "where S: ";
      Anchor "trait" "https://doc.rust-lang.org/nightly/core/hash/trait.BuildHasher.html" (Some "core::hash::BuildHasher") "BuildHasher";
      Text ", T: ";
      Anchor "trait" "https://doc.rust-lang.org/nightly/core/cmp/trait.Eq.html" (Some "core::cmp::Eq") "Eq";
      Text " + ";
      Anchor "trait" "https://doc.rust-lang.org/nightly/core/hash/trait.Hash.html" (Some "core::hash::Hash") "Hash";
      SpanClose ];
    [ Text "impl&lt;'a,&nbsp;T,&nbsp;S&gt; ";
      Anchor "trait" "https://doc.rust-lang.org/nightly/core/iter/iterator/trait.Iterator.html" (Some "core::iter::iterator::Iterator") "Iterator";
      Text " for ";
      Anchor "struct" "https://doc.rust-lang.org/nightly/std/collections/hash/set/struct.Difference.html" (Some "std::collections::hash::set::Difference") "Difference";
      Text "&lt;'a,&nbsp;T,&nbsp;S&gt; ";
      SpanOpen "where";
      Text "where S: ";
      Anchor "trait" "https://doc.rust-lang.org/nightly/core/hash/trait.BuildHasher.html" (Some "core::hash::BuildHasher") "BuildHasher";
      Text ", T: ";
      Anchor "trait" "https://doc.rust-lang.org/nightly/core/cmp/trait.Eq.html" (Some "core::cmp::Eq") "Eq";
      Text " + ";
      Anchor "trait" "https://doc.rust-lang.org/nightly/core/hash/trait.Hash.html" (Some "core::hash::Hash") "Hash";
      SpanClose ];
    [ Text "impl&lt;'a,&nbsp;T,&nbsp;S&gt; ";
      Anchor "trait" "https://doc.rust-lang.org/nightly/core/iter/iterator/trait.Iterator.html" (Some "core::iter::iterator::Iterator") "Iterator";
      Text " for ";
      Anchor "struct" "https://doc.rust-lang.org/nightly/std/collections/hash/set/struct.SymmetricDifference.html" (Some "std::collections::hash::set::SymmetricDifference") "SymmetricDifference";
      Text "&lt;'a,&nbsp;T,&nbsp;S&gt; ";
      SpanOpen "where";
      Text "where S: ";
      Anchor "trait" "https://doc.rust-lang.org/nightly/core/hash/trait.BuildHasher.html" (Some "core::hash::BuildHasher") "BuildHasher";
      Text ", T: ";
      Anchor "trait" "https://doc.rust-lang.org/nightly/core/cmp/trait.Eq.html" (Some "core::cmp::Eq") "Eq";
      Text " + ";
      Anchor "trait" "https://doc.rust-lang.org/nightly/core/hash/trait.Hash.html" (Some "core::hash::Hash") "Hash";
      SpanClose ];
    [ Text "impl&lt;'a,&nbsp;T,&nbsp;S&gt; ";
      Anchor "trait" "https://doc.rust-lang.org/nightly/core/iter/iterator/trait.Iterator.html" (Some "core::iter::iterator::Iterator") "Iterator";
      Text " for ";
      Anchor "struct" "https://doc.rust-lang.org/nightly/std/collections/hash/set/struct.Union.html" (Some "std::collections::hash::set::Union") "Union";
      Text "&lt;'a,&nbsp;T,&nbsp;S&gt; ";
      SpanOpen "where";
      Text "where S: ";
      Anchor "trait" "https://doc.rust-lang.org/nightly/core/hash/trait.BuildHasher.html" (Some "core::hash::BuildHasher") "BuildHasher";
      Text ", T: ";
      Anchor "trait" "https://doc.rust-lang.org/nightly/core/cmp/trait.Eq.html" (Some "core::cmp::Eq") "Eq";
      Text " + ";
      Anchor "trait" "https://doc.rust-lang.org/nightly/core/hash/trait.Hash.html" (Some "core::hash::Hash") "Hash";
      SpanClose ];
    [ Text "impl&lt;'a,&nbsp;T&gt; ";
      Anchor "trait" "https://doc.rust-lang.org/nightly/core/iter/iterator/trait.Iterator.html" (Some "core::iter::iterator::Iterator") "Iterator";
      Text " for ";
      Anchor "struct" "https://doc.rust-lang.org/nightly/collections/binary_heap/struct.Iter.html" (Some "collections::binary_heap::Iter") "Iter";
      Text "&lt;'a,&nbsp;T&gt;" ];
    [ Text "impl&lt;T&gt; ";
      Anchor "trait" "https://doc.rust-lang.org/nightly/core/iter/iterator/trait.Iterator.html" (Some "core::iter::iterator::Iterator") "Iterator";
      Text " for ";
      Anchor "struct" "https://doc.rust-lang.org/nightly/collections/binary_heap/struct.IntoIter.html" (Some "collections::binary_heap::IntoIter") "IntoIter";
      Text "&lt;T&gt;" ];
    [ Text "impl&lt;'a,&nbsp;T&gt; ";
      Anchor "trait" "https://doc.rust-lang.org/nightly/core/iter/iterator/trait.Iterator.html" (Some "core::iter::iterator::Iterator") "Iterator";
      Text " for ";
      Anchor "struct" "https://doc.rust-lang.org/nightly/collections/binary_heap/struct.Drain.html" (Some "collections::binary_heap::Drain") "Drain";
      Text "&lt;'a,&nbsp;T&gt; ";
      SpanOpen "where";
      Text "where T: 'a";
      SpanClose ];
    [ Text "impl&lt;'a,&nbsp;T&gt; ";
      Anchor "trait" "https://doc.rust-lang.org/nightly/core/iter/iterator/trait.Iterator.html" (Some "core::iter::iterator::Iterator") "Iterator";
      Text " for ";
      Anchor "struct" "https://doc.rust-lang.org/nightly/collections/vec_deque/struct.Iter.html" (Some "collections::vec_deque::Iter") "Iter";
      Text "&lt;'a,&nbsp;T&gt;" ];
    [ Text "impl&lt;'a,&nbsp;T&gt; ";
      Anchor "trait" "https://doc.rust-lang.org/nightly/core/iter/iterator/trait.Iterator.html" (Some "core::iter::iterator::Iterator") "Iterator";
      Text " for ";
      Anchor "struct" "https://doc.rust-lang.org/nightly/collections/vec_deque/struct.IterMut.html" (Some "collections::vec_deque::IterMut") "IterMut";
      Text "&lt;'a,&nbsp;T&gt;" ];
    [ Text "impl&lt;T&gt; ";
      Anchor "trait" "https://doc.rust-lang.org/nightly/core/iter/iterator/trait.Iterator.html" (Some "core::iter::iterator::Iterator") "Iterator";
      Text " for ";
      Anchor "struct" "https://doc.rust-lang.org/nightly/collections/vec_deque/struct.IntoIter.html" (Some "collections::vec_deque::IntoIter") "IntoIter";
      Text "&lt;T&gt;" ];
    [ Text "impl&lt;'a,&nbsp;T&gt; ";
      Anchor "trait" "https://doc.rust-lang.org/nightly/core/iter/iterator/trait.Iterator.html" (Some "core::iter::iterator::Iterator") "Iterator";
      Text " for ";
      Anchor "struct" "https://doc.rust-lang.org/nightly/collections/vec_deque/struct.Drain.html" (Some "collections::vec_deque::Drain") "Drain";
      Text "&lt;'a,&nbsp;T&gt; ";
      SpanOpen "where";
      Text "where T: 'a";
      SpanClose ];
    [ Text "impl&lt;'a,&nbsp;A&gt; ";
      Anchor "trait" "https://doc.rust-lang.org/nightly/core/iter/iterator/trait.Iterator.html" (Some "core::iter::iterator::Iterator") "Iterator";
      Text " for ";
      Anchor "struct" "https://doc.rust-lang.org/nightly/collections/linked_list/struct.Iter.html" (Some "collections::linked_list::Iter") "Iter";
      Text "&lt;'a,&nbsp;A&gt;" ];
    [ Text "impl&lt;'a,&nbsp;A&gt; ";
      Anchor "trait" "https://doc.rust-lang.org/nightly/core/iter/iterator/trait.Iterator.html" (Some "core::iter::iterator::Iterator") "Iterator";
      Text " for ";
      Anchor "struct" "https://doc.rust-lang.org/nightly/collections/linked_list/struct.IterMut.html" (Some "collections::linked_list::IterMut") "IterMut";
      Text "&lt;'a,&nbsp;A&gt;" ];
    [ Text "impl&lt;A&gt; ";
      Anchor "trait" "https://doc.rust-lang.org/nightly/core/iter/iterator/trait.Iterator.html" (Some "core::iter::iterator::Iterator") "Iterator";
      Text " for ";
      Anchor "struct" "https://doc.rust-lang.org/nightly/collections/linked_list/struct.IntoIter.html" (Some "collections::linked_list::IntoIter") "IntoIter";
      Text "&lt;A&gt;" ];
    [ Text "impl ";
      Anchor "trait" "https://doc.rust-lang.org/nightly/core/iter/iterator/trait.Iterator.html" (Some "core::iter::iterator::Iterator") "Iterator";
      Text " for ";
      Anchor "struct" "https://doc.rust-lang.org/nightly/std/env/struct.Vars.html" (Some "std::env::Vars") "Vars" ];
    [ Text "impl ";
      Anchor "trait" "https://doc.rust-lang.org/nightly/core/iter/iterator/trait.Iterator.html" (Some "core::iter::iterator::Iterator") "Iterator";
      Text " for ";
      Anchor "struct" "https://doc.rust-lang.org/nightly/std/env/struct.VarsOs.html" (Some "std::env::VarsOs") "VarsOs" ];
    [ Text "impl&lt;'a&gt; ";
      Anchor "trait" "https://doc.rust-lang.org/nightly/core/iter/iterator/trait.Iterator.html" (Some "core::iter::iterator::Iterator") "Iterator";
      Text " for ";
      Anchor "struct" "https://doc.rust-lang.org/nightly/std/env/struct.SplitPaths.html" (Some "std::env::SplitPaths") "SplitPaths";
      Text "&lt;'a&gt;" ];
    [ Text "impl ";
      Anchor "trait" "https://doc.rust-lang.org/nightly/core/iter/iterator/trait.Iterator.html" (Some "core::iter::iterator::Iterator") "Iterator";
      Text " for ";
      Anchor "struct" "https://doc.rust-lang.org/nightly/std/env/struct.Args.html" (Some "std::env::Args") "Args" ];
    [ Text "impl ";
      Anchor "trait" "https://doc.rust-lang.org/nightly/core/iter/iterator/trait.Iterator.html" (Some "core::iter::iterator::Iterator") "Iterator";
      Text " for ";
      Anchor "struct" "https://doc.rust-lang.org/nightly/std/env/struct.ArgsOs.html" (Some "std::env::ArgsOs") "ArgsOs" ];
    [ Text "impl ";
      Anchor "trait" "https://doc.rust-lang.org/nightly/core/iter/iterator/trait.Iterator.html" (Some "core::iter::iterator::Iterator") "Iterator";
      Text " for ";
      Anchor "struct" "https://doc.rust-lang.org/nightly/std/fs/struct.ReadDir.html" (Some "std::fs::ReadDir") "ReadDir" ];
    [ Text "impl&lt;R&gt; ";
      Anchor "trait" "https://doc.rust-lang.org/nightly/core/iter/iterator/trait.Iterator.html" (Some "core::iter::iterator::Iterator") "Iterator";
      Text " for ";
      Anchor "struct" "https://doc.rust-lang.org/nightly/std/io/struct.Bytes.html" (Some "std::io::Bytes") "Bytes";
      Text "&lt;R&gt; ";
      SpanOpen "where";
      Text "where R: ";
      Anchor "trait" "https://doc.rust-lang.org/nightly/std/io/trait.Read.html" (Some "std::io::Read") "Read";
      SpanClose ];
    [ Text "impl&lt;R&gt; ";
      Anchor "trait" "https://doc.rust-lang.org/nightly/core/iter/iterator/trait.Iterator.html" (Some "core::iter::iterator::Iterator") "Iterator";
      Text " for ";
      Anchor "struct" "https://doc.rust-lang.org/nightly/std/io/struct.Chars.html" (Some "std::io::Chars") "Chars";
      Text "&lt;R&gt; ";
      SpanOpen "where";
      Text "where R: ";
      Anchor "trait" "https://doc.rust-lang.org/nightly/std/io/trait.Read.html" (Some "std::io::Read") "Read";
      SpanClose ];
    [ Text "impl&lt;B&gt; ";
      Anchor "trait" "https://doc.rust-lang.org/nightly/core/iter/iterator/trait.Iterator.html" (Some "core::iter::iterator::Iterator") "Iterator";
      Text " for ";
      Anchor "struct" "https://doc.rust-lang.org/nightly/std/io/struct.Split.html" (Some "std::io::Split") "Split";
      Text "&lt;B&gt; ";
      SpanOpen "where";
      Text "where B: ";
      Anchor "trait" "https://doc.rust-lang.org/nightly/std/io/trait.BufRead.html" (Some "std::io::BufRead") "BufRead";
      SpanClose ];
    [ Text "impl&lt;B&gt; ";
      Anchor "trait" "https://doc.rust-lang.org/nightly/core/iter/iterator/trait.Iterator.html" (Some "core::iter::iterator::Iterator") "Iterator";
      Text " for ";
      Anchor "struct" "https://doc.rust-lang.org/nightly/std/io/struct.Lines.html" (Some "std::io::Lines") "Lines";
      Text "&lt;B&gt; ";
      SpanOpen "where";
      Text "where B: ";
      Anchor "trait" "https://doc.rust-lang.org/nightly/std/io/trait.BufRead.html" (Some "std::io::BufRead") "BufRead";
      SpanClose ];
    [ Text "impl&lt;'a&gt; ";
      Anchor "trait" "https://doc.rust-lang.org/nightly/core/iter/iterator/trait.Iterator.html" (Some "core::iter::iterator::Iterator") "Iterator";
      Text " for ";
      Anchor "struct" "https://doc.rust-lang.org/nightly/std/net/tcp/struct.Incoming.html" (Some "std::net::tcp::Incoming") "Incoming";
      Text "&lt;'a&gt;" ];
    [ Text "impl ";
      Anchor "trait" "https://doc.rust-lang.org/nightly/core/iter/iterator/trait.Iterator.html" (Some "core::iter::iterator::Iterator") "Iterator";
      Text " for ";
      Anchor "struct" "https://doc.rust-lang.org/nightly/std/net/struct.LookupHost.html" (Some "std::net::LookupHost") "LookupHost" ];
    [ Text "impl&lt;'a&gt; ";
      Anchor "trait" "https://doc.rust-lang.org/nightly/core/iter/iterator/trait.Iterator.html" (Some "core::iter::iterator::Iterator") "Iterator";
      Text " for ";
      Anchor "struct" "https://doc.rust-lang.org/nightly/std/sys/ext/net/struct.Incoming.html" (Some "std::sys::ext::net::Incoming") "Incoming";
      Text "&lt;'a&gt;" ];
    [ Text "impl&lt;'a&gt; ";
      Anchor "trait" "https://doc.rust-lang.org/nightly/core/iter/iterator/trait.Iterator.html" (Some "core::iter::iterator::Iterator") "Iterator";
      Text " for ";
      Anchor "struct" "https://doc.rust-lang.org/nightly/std/path/struct.Iter.html" (Some "std::path::Iter") "Iter";
      Text "&lt;'a&gt;" ];
    [ Text "impl&lt;'a&gt; ";
      Anchor "trait" "https://doc.rust-lang.org/nightly/core/iter/iterator/trait.Iterator.html" (Some "core::iter::iterator::Iterator") "Iterator";
      Text " for ";
      Anchor "struct" "https://doc.rust-lang.org/nightly/std/path/struct.Components.html" (Some "std::path::Components") "Components";
      Text "&lt;'a&gt;" ];
    [ Text "impl&lt;'a,&nbsp;T&gt; ";
      Anchor "trait" "https://doc.rust-lang.org/nightly/core/iter/iterator/trait.Iterator.html" (Some "core::iter::iterator::Iterator") "Iterator";
      Text " for ";
      Anchor "struct" "https://doc.rust-lang.org/nightly/std/sync/mpsc/struct.Iter.html" (Some "std::sync::mpsc::Iter") "Iter";
      Text "&lt;'a,&nbsp;T&gt;" ];
    [ Text "impl&lt;T&gt; ";
      Anchor "trait" "https://doc.rust-lang.org/nightly/core/iter/iterator/trait.Iterator.html" (Some "core::iter::iterator::Iterator") "Iterator";
      Text " for ";
      Anchor "struct" "https://doc.rust-lang.org/nightly/std/sync/mpsc/struct.IntoIter.html" (Some "std::sync::mpsc::IntoIter") "IntoIter";
      Text "&lt;T&gt;" ];
    [ Text "impl ";
      Anchor "trait" "https://doc.rust-lang.org/nightly/core/iter/iterator/trait.Iterator.html" (Some "core::iter::iterator::Iterator") "Iterator";
      Text " for ";
      Anchor "struct" "https://doc.rust-lang.org/nightly/rustc_unicode/char/struct.ToLowercase.html" (Some "rustc_unicode::char::ToLowercase") "ToLowercase" ];
    [ Text "impl ";
      Anchor "trait" "https://doc.rust-lang.org/nightly/core/iter/iterator/trait.Iterator.html" (Some "core::iter::iterator::Iterator") "Iterator";
      Text " for ";
      Anchor "struct" "https://doc.rust-lang.org/nightly/rustc_unicode/char/struct.ToUppercase.html" (Some "rustc_unicode::char::ToUppercase") "ToUppercase" ];
    [ Text "impl&lt;I&gt; ";
      Anchor "trait" "https://doc.rust-lang.org/nightly/core/iter/iterator/trait.Iterator.html" (Some "core::iter::iterator::Iterator") "Iterator";
      Text " for ";
      Anchor "struct" "https://doc.rust-lang.org/nightly/rustc_unicode/char/struct.DecodeUtf16.html" (Some "rustc_unicode::char::DecodeUtf16") "DecodeUtf16";
      Text "&lt;I&gt; ";
      SpanOpen "where";
      Text "where I: ";
      Anchor "trait" "https://doc.rust-lang.org/nightly/core/iter/iterator/trait.Iterator.html" (Some "core::iter::iterator::Iterator") "Iterator";
      Text "&lt;Item=";
      Anchor "primitive" "https://doc.rust-lang.org/nightly/std/primitive.u16.html" None "u16";
      Text "&gt;";
      SpanClose ];
    [ Text "impl&lt;I&gt; ";
      Anchor "trait" "https://doc.rust-lang.org/nightly/core/iter/iterator/trait.Iterator.html" (Some "core::iter::iterator::Iterator") "Iterator";
      Text " for ";
      Anchor "struct" "https://doc.rust-lang.org/nightly/alloc/boxed/struct.Box.html" (Some "alloc::boxed::Box") "Box";
      Text "&lt;I&gt; ";
      SpanOpen "where";
      Text "where I: ";
      Anchor "trait" "https://doc.rust-lang.org/nightly/core/iter/iterator/trait.Iterator.html" (Some "core::iter::iterator::Iterator") "Iterator";
      Text " + ?";
      Anchor "trait" "https://doc.rust-lang.org/nightly/core/marker/trait.Sized.html" (Some "core::marker::Sized") "Sized";
      SpanClose ];
    [ Text "impl&lt;'a&gt; ";
      Anchor "trait" "https://doc.rust-lang.org/nightly/core/iter/iterator/trait.Iterator.html" (Some "core::iter::iterator::Iterator") "Iterator";
      Text " for ";
      Anchor "struct" "https://doc.rust-lang.org/nightly/collections/str/struct.EncodeUtf16.html" (Some "collections::str::EncodeUtf16") "EncodeUtf16";
      Text "&lt;'a&gt;" ];
    [ Text "impl&lt;'a&gt; ";
      Anchor "trait" "https://doc.rust-lang.org/nightly/core/iter/iterator/trait.Iterator.html" (Some "core::iter::iterator::Iterator") "Iterator";
      Text " for ";
      Anchor "struct" "https://doc.rust-lang.org/nightly/collections/string/struct.Drain.html" (Some "collections::string::Drain") "Drain";
      Text "&lt;'a&gt;" ];
    [ Text "impl&lt;T&gt; ";
      Anchor "trait" "https://doc.rust-lang.org/nightly/core/iter/iterator/trait.Iterator.html" (Some "core::iter::iterator::Iterator") "Iterator";
      Text " for ";
      Anchor "struct" "https://doc.rust-lang.org/nightly/collections/vec/struct.IntoIter.html" (Some "collections::vec::IntoIter") "IntoIter";
      Text "&lt;T&gt;" ];
    [ Text "impl&lt;'a,&nbsp;T&gt; ";
      Anchor "trait" "https://doc.rust-lang.org/nightly/core/iter/iterator/trait.Iterator.html" (Some "core::iter::iterator::Iterator") "Iterator";
      Text " for ";
      Anchor "struct" "https://doc.rust-lang.org/nightly/collections/vec/struct.Drain.html" (Some "collections::vec::Drain") "Drain";
      Text "&lt;'a,&nbsp;T&gt;" ];
    [ Text "impl&lt;'a&gt; ";
      Anchor "trait" "https://doc.rust-lang.org/nightly/core/iter/iterator/trait.Iterator.html" (Some "core::iter::iterator::Iterator") "Iterator";
      Text " for ";
      Anchor "struct" "openssl/x509/struct.GeneralNamesIter.html" (Some "openssl::x509::GeneralNamesIter") "GeneralNamesIter";
      Text "&lt;'a&gt;" ]
  ].

(** The array assigned to the property [chrono] of [implementors]. *)
Definition chrono : list entry :=
  [ [ Text "impl&lt;'a&gt; ";
      Anchor "trait" "https://doc.rust-lang.org/nightly/core/iter/iterator/trait.Iterator.html" (Some "core::iter::iterator::Iterator") "Iterator";
      Text " for ";
      Anchor "struct" "chrono/format/strftime/struct.StrftimeItems.html" (Some "chrono::format::strftime::StrftimeItems") "StrftimeItems";
      Text "&lt;'a&gt;" ]
  ].

(** The array assigned to the property [clap] of [implementors]. *)
Definition clap : list entry :=
  [ [ Text "impl&lt;'a&gt; ";
      Anchor "trait" "https://doc.rust-lang.org/nightly/core/iter/iterator/trait.Iterator.html" (Some "core::iter::iterator::Iterator") "Iterator";
      Text " for ";
      Anchor "struct" "clap/struct.Values.html" (Some "clap::Values") "Values";
      Text "&lt;'a&gt;" ];
    [ Text "impl&lt;'a&gt; ";
      Anchor "trait" "https://doc.rust-lang.org/nightly/core/iter/iterator/trait.Iterator.html" (Some "core::iter::iterator::Iterator") "Iterator";
      Text " for ";
      Anchor "struct" "clap/struct.OsValues.html" (Some "clap::OsValues") "OsValues";
      Text "&lt;'a&gt;" ]
  ].

(** The array assigned to the property [hyper] of [implementors]. *)
Definition hyper : list entry :=
  [ [ Text "impl ";
      Anchor "trait" "https://doc.rust-lang.org/nightly/core/iter/iterator/trait.Iterator.html" (Some "core::iter::iterator::Iterator") "Iterator";
      Text " for ";
      Anchor "struct" "url/host/struct.SocketAddrs.html" (Some "url::host::SocketAddrs") "SocketAddrs" ];
    [ Text "impl&lt;'a&gt; ";
      Anchor "trait" "https://doc.rust-lang.org/nightly/core/iter/iterator/trait.Iterator.html" (Some "core::iter::iterator::Iterator") "Iterator";
      Text " for ";
      Anchor "struct" "url/form_urlencoded/struct.Parse.html" (Some "url::form_urlencoded::Parse") "Parse";
      Text "&lt;'a&gt;" ];
    [ Text "impl&lt;'a&gt; ";
      Anchor "trait" "https://doc.rust-lang.org/nightly/core/iter/iterator/trait.Iterator.html" (Some "core::iter::iterator::Iterator") "Iterator";
      Text " for ";
      Anchor "struct" "url/form_urlencoded/struct.ParseIntoOwned.html" (Some "url::form_urlencoded::ParseIntoOwned") "ParseIntoOwned";
      Text "&lt;'a&gt;" ];
    [ Text "impl&lt;'a&gt; ";
      Anchor "trait" "https://doc.rust-lang.org/nightly/core/iter/iterator/trait.Iterator.html" (Some "core::iter::iterator::Iterator") "Iterator";
      Text " for ";
      Anchor "struct" "url/form_urlencoded/struct.ByteSerialize.html" (Some "url::form_urlencoded::ByteSerialize") "ByteSerialize";
      Text "&lt;'a&gt;" ];
    [ Text "impl&lt;'a,&nbsp;E&gt; ";
      Anchor "trait" "https://doc.rust-lang.org/nightly/core/iter/iterator/trait.Iterator.html" (Some "core::iter::iterator::Iterator") "Iterator";
      Text " for ";
      Anchor "struct" "url/percent_encoding/struct.PercentEncode.html" (Some "url::percent_encoding::PercentEncode") "PercentEncode";
      Text "&lt;'a,&nbsp;E&gt; ";
      SpanOpen "where";
      Text "where E: ";
      Anchor "trait" "url/percent_encoding/trait.EncodeSet.html" (Some "url::percent_encoding::EncodeSet") "EncodeSet";
      SpanClose ];
    [ Text "impl&lt;'a&gt; ";
      Anchor "trait" "https://doc.rust-lang.org/nightly/core/iter/iterator/trait.Iterator.html" (Some "core::iter::iterator::Iterator") "Iterator";
      Text " for ";
      Anchor "struct" "url/percent_encoding/struct.PercentDecode.html" (Some "url::percent_encoding::PercentDecode") "PercentDecode";
      Text "&lt;'a&gt;" ];
    [ Text "impl&lt;'a&gt; ";
      Anchor "trait" "https://doc.rust-lang.org/nightly/core/iter/iterator/trait.Iterator.html" (Some "core::iter::iterator::Iterator") "Iterator";
      Text " for ";
      Anchor "struct" "hyper/header/struct.HeadersItems.html" (Some "hyper::header::HeadersItems") "HeadersItems";
      Text "&lt;'a&gt;" ];
    [ Text "impl&lt;'a,&nbsp;N:&nbsp;";
      Anchor "trait" "hyper/net/trait.NetworkListener.html" (Some "hyper::net::NetworkListener") "NetworkListener";
      Text " + 'a&gt; ";
      Anchor "trait" "https://doc.rust-lang.org/nightly/core/iter/iterator/trait.Iterator.html" (Some "core::iter::iterator::Iterator") "Iterator";
      Text " for ";
      Anchor "struct" "hyper/net/struct.NetworkConnections.html" (Some "hyper::net::NetworkConnections") "NetworkConnections";
      Text "&lt;'a,&nbsp;N&gt;" ]
  ].

(** The array assigned to the property [egg_mode] of [implementors]. *)
Definition egg_mode : list entry :=
  [ [ Text "impl&lt;'a&gt; ";
      Anchor "trait" "https://doc.rust-lang.org/nightly/core/iter/iterator/trait.Iterator.html" (Some "core::iter::iterator::Iterator") "Iterator";
      Text " for ";
      Anchor "struct" "egg_mode/user/struct.UserSearch.html" (Some "egg_mode::user::UserSearch") "UserSearch";
      Text "&lt;'a&gt;" ];
    [ Text "impl&lt;'a,&nbsp;T&gt; ";
      Anchor "trait" "https://doc.rust-lang.org/nightly/core/iter/iterator/trait.Iterator.html" (Some "core::iter::iterator::Iterator") "Iterator";
      Text " for ";
      Anchor "struct" "egg_mode/cursor/struct.CursorIter.html" (Some "egg_mode::cursor::CursorIter") "CursorIter";
      Text "&lt;'a,&nbsp;T&gt; ";
      SpanOpen "where";
      Text "where T: ";
      Anchor "trait" "egg_mode/cursor/trait.Cursor.html" (Some "egg_mode::cursor::Cursor") "Cursor";
      Text " + FromJson";
      SpanClose ]
  ].

(** The assignments [implementors[crate] = [...]] in the order the script
    makes them, and the quote character its HTML attributes use. *)
Definition table : listing :=
  {| quote := "'"%char;
     assignments :=
       [ ("vec_map", vec_map);
         ("lazy_static", lazy_static);
         ("unicode_normalization", unicode_normalization);
         ("num_iter", num_iter);
         ("libc", libc);
         ("rustc_serialize", rustc_serialize);
         ("solicit", solicit);
         ("url", url);
         ("rand", rand);
         ("openssl", openssl);
         ("chrono", chrono);
         ("clap", clap);
         ("hyper", hyper);
         ("egg_mode", egg_mode) ] |}.

End Iterator.
(** Second script of [implementors/core/iter/iterator/trait.Iterator.js]:
    the implementors of [core::ops::arith::Add]. *)
Module Add.

(** The array assigned to the property [chrono] of [implementors]. *)
Definition chrono : list entry :=
  [ [ Text "impl ";
      Anchor "trait" "https://doc.rust-lang.org/nightly/core/ops/arith/trait.Add.html" (Some "trait core::ops::arith::Add") "Add";
      Text "&lt;";
      Anchor "struct" "chrono/duration/struct.Duration.html" (Some "struct chrono::duration::Duration") "Duration";
      Text "&gt; for ";
      Anchor "struct" "chrono/naive/date/struct.NaiveDate.html" (Some "struct chrono::naive::date::NaiveDate") "NaiveDate" ];
    [ Text "impl ";
      Anchor "trait" "https://doc.rust-lang.org/nightly/core/ops/arith/trait.Add.html" (Some "trait core::ops::arith::Add") "Add";
      Text "&lt;";
      Anchor "struct" "chrono/duration/struct.Duration.html" (Some "struct chrono::duration::Duration") "Duration";
      Text "&gt; for ";
      Anchor "struct" "chrono/naive/time/struct.NaiveTime.html" (Some "struct chrono::naive::time::NaiveTime") "NaiveTime" ];
    [ Text "impl ";
      Anchor "trait" "https://doc.rust-lang.org/nightly/core/ops/arith/trait.Add.html" (Some "trait core::ops::arith::Add") "Add";
      Text "&lt;";
      Anchor "struct" "chrono/duration/struct.Duration.html" (Some "struct chrono::duration::Duration") "Duration";
      Text "&gt; for ";
      Anchor "struct" "chrono/naive/datetime/struct.NaiveDateTime.html" (Some "struct chrono::naive::datetime::NaiveDateTime") "NaiveDateTime" ];
    [ Text "impl&lt;Tz:&nbsp;";
      Anchor "trait" "chrono/offset/trait.TimeZone.html" (Some "trait chrono::offset::TimeZone") "TimeZone";
      Text "&gt; ";
      Anchor "trait" "https://doc.rust-lang.org/nightly/core/ops/arith/trait.Add.html" (Some "trait core::ops::arith::Add") "Add";
      Text "&lt;";
      Anchor "struct" "chrono/duration/struct.Duration.html" (Some "struct chrono::duration::Duration") "Duration";
      Text "&gt; for ";
      Anchor "struct" "chrono/date/struct.Date.html" (Some "struct chrono::date::Date") "Date";
      Text "&lt;Tz&gt;" ];
    [ Text "impl&lt;Tz:&nbsp;";
      Anchor "trait" "chrono/offset/trait.TimeZone.html" (Some "trait chrono::offset::TimeZone") "TimeZone";
      Text "&gt; ";
      Anchor "trait" "https://doc.rust-lang.org/nightly/core/ops/arith/trait.Add.html" (Some "trait core::ops::arith::Add") "Add";
      Text "&lt;";
      Anchor "struct" "chrono/duration/struct.Duration.html" (Some "struct chrono::duration::Duration") "Duration";
      Text "&gt; for ";
      Anchor "struct" "chrono/datetime/struct.DateTime.html" (Some "struct chrono::datetime::DateTime") "DateTime";
      Text "&lt;Tz&gt;" ]
  ].

(** The array assigned to the property [crypto] of [implementors]. *)
Definition crypto : list entry :=
  [ [ Text "impl ";
      Anchor "trait" "https://doc.rust-lang.org/nightly/core/ops/arith/trait.Add.html" (Some "trait core::ops::arith::Add") "Add";
      Text " for ";
      Anchor "struct" "crypto/curve25519/struct.Fe.html" (Some "struct crypto::curve25519::Fe") "Fe" ];
    [ Text "impl ";
      Anchor "trait" "https://doc.rust-lang.org/nightly/core/ops/arith/trait.Add.html" (Some "trait core::ops::arith::Add") "Add";
      Text "&lt;";
      Anchor "struct" "crypto/curve25519/struct.GeCached.html" (Some "struct crypto::curve25519::GeCached") "GeCached";
      Text "&gt; for ";
      Anchor "struct" "crypto/curve25519/struct.GeP3.html" (Some "struct crypto::curve25519::GeP3") "GeP3" ];
    [ Text "impl ";
      Anchor "trait" "https://doc.rust-lang.org/nightly/core/ops/arith/trait.Add.html" (Some "trait core::ops::arith::Add") "Add";
      Text "&lt;";
      Anchor "struct" "crypto/curve25519/struct.GePrecomp.html" (Some "struct crypto::curve25519::GePrecomp") "GePrecomp";
      Text "&gt; for ";
      Anchor "struct" "crypto/curve25519/struct.GeP3.html" (Some "struct crypto::curve25519::GeP3") "GeP3" ]
  ].

(** The array assigned to the property [openssl] of [implementors]. *)
Definition openssl : list entry :=
  [ [ Text "impl&lt;'a&gt; ";
      Anchor "trait" "https://doc.rust-lang.org/nightly/core/ops/arith/trait.Add.html" (Some "trait core::ops::arith::Add") "Add";
      Text "&lt;&amp;'a ";
      Anchor "struct" "openssl/bn/struct.BigNum.html" (Some "struct openssl::bn::BigNum") "BigNum";
      Text "&gt; for &amp;'a ";
      Anchor "struct" "openssl/bn/struct.BigNum.html" (Some "struct openssl::bn::BigNum") "BigNum" ]
  ].

(** The array assigned to the property [time] of [implementors]. *)
Definition time : list entry :=
  [ [ Text "impl ";
      Anchor "trait" "https://doc.rust-lang.org/nightly/core/ops/arith/trait.Add.html" (Some "trait core::ops::arith::Add") "Add";
      Text " for ";
      Anchor "struct" "time/struct.Duration.html" (Some "struct time::Duration") "Duration" ];
    [ Text "impl ";
      Anchor "trait" "https://doc.rust-lang.org/nightly/core/ops/arith/trait.Add.html" (Some "trait core::ops::arith::Add") "Add";
      Text "&lt;";
      Anchor "struct" "time/struct.Duration.html" (Some "struct time::Duration") "Duration";
      Text "&gt; for ";
      Anchor "struct" "time/struct.Timespec.html" (Some "struct time::Timespec") "Timespec" ];
    [ Text "impl ";
      Anchor "trait" "https://doc.rust-lang.org/nightly/core/ops/arith/trait.Add.html" (Some "trait core::ops::arith::Add") "Add";
      Text "&lt;";
      Anchor "struct" "time/struct.Duration.html" (Some "struct time::Duration") "Duration";
      Text "&gt; for ";
      Anchor "struct" "time/struct.SteadyTime.html" (Some "struct time::SteadyTime") "SteadyTime" ];
    [ Text "impl ";
      Anchor "trait" "https://doc.rust-lang.org/nightly/core/ops/arith/trait.Add.html" (Some "trait core::ops::arith::Add") "Add";
      Text "&lt;";
      Anchor "struct" "time/struct.Duration.html" (Some "struct time::Duration") "Duration";
      Text "&gt; for ";
      Anchor "struct" "time/struct.Tm.html" (Some "struct time::Tm") "Tm" ]
  ].

(** The assignments [implementors[crate] = [...]] in the order the script
    makes them, and the quote character its HTML attributes use. *)
Definition table : listing :=
  {| quote := "034"%char;
     assignments :=
       [ ("chrono", chrono);
         ("crypto", crypto);
         ("openssl", openssl);
         ("time", time) ] |}.

End Add.
(** The script of [implementors/rustc_serialize/serialize/trait.Encodable.js]:
    the implementors of [rustc_serialize::serialize::Encodable]. *)
Module Encodable.

(** The array assigned to the property [chrono] of [implementors]. *)
Definition chrono : list entry :=
  [ [ Text "impl ";
      Anchor "trait" "rustc_serialize/serialize/trait.Encodable.html" (Some "trait rustc_serialize::serialize::Encodable") "Encodable";
      Text " for ";
      Anchor "struct" "chrono/offset/utc/struct.UTC.html" (Some "struct chrono::offset::utc::UTC") "UTC" ];
    [ Text "impl ";
      Anchor "trait" "rustc_serialize/serialize/trait.Encodable.html" (Some "trait rustc_serialize::serialize::Encodable") "Encodable";
      Text " for ";
      Anchor "struct" "chrono/offset/fixed/struct.FixedOffset.html" (Some "struct chrono::offset::fixed::FixedOffset") "FixedOffset" ];
    [ Text "impl ";
      Anchor "trait" "rustc_serialize/serialize/trait.Encodable.html" (Some "trait rustc_serialize::serialize::Encodable") "Encodable";
      Text " for ";
      Anchor "struct" "chrono/offset/local/struct.Local.html" (Some "struct chrono::offset::local::Local") "Local" ];
    [ Text "impl ";
      Anchor "trait" "rustc_serialize/serialize/trait.Encodable.html" (Some "trait rustc_serialize::serialize::Encodable") "Encodable";
      Text " for ";
      Anchor "struct" "chrono/naive/date/struct.NaiveDate.html" (Some "struct chrono::naive::date::NaiveDate") "NaiveDate" ];
    [ Text "impl ";
      Anchor "trait" "rustc_serialize/serialize/trait.Encodable.html" (Some "trait rustc_serialize::serialize::Encodable") "Encodable";
      Text " for ";
      Anchor "struct" "chrono/naive/time/struct.NaiveTime.html" (Some "struct chrono::naive::time::NaiveTime") "NaiveTime" ];
    [ Text "impl ";
      Anchor "trait" "rustc_serialize/serialize/trait.Encodable.html" (Some "trait rustc_serialize::serialize::Encodable") "Encodable";
      Text " for ";
      Anchor "struct" "chrono/naive/datetime/struct.NaiveDateTime.html" (Some "struct chrono::naive::datetime::NaiveDateTime") "NaiveDateTime" ];
    [ Text "impl&lt;Tz:&nbsp;";
      Anchor "trait" "chrono/offset/trait.TimeZone.html" (Some "trait chrono::offset::TimeZone") "TimeZone";
      Text "&gt; ";
      Anchor "trait" "rustc_serialize/serialize/trait.Encodable.html" (Some "trait rustc_serialize::serialize::Encodable") "Encodable";
      Text " for ";
      Anchor "struct" "chrono/date/struct.Date.html" (Some "struct chrono::date::Date") "Date";
      Text "&lt;Tz&gt; ";
      SpanOpen "where fmt-newline";
      Text "where";
      Br;
      Text "&nbsp;&nbsp;&nbsp;&nbsp;Tz::";
      Anchor "type" "chrono/offset/trait.TimeZone.html#associatedtype.Offset" (Some "type chrono::offset::TimeZone::Offset") "Offset";
      Text ": ";
      Anchor "trait" "rustc_serialize/serialize/trait.Encodable.html" (Some "trait rustc_serialize::serialize::Encodable") "Encodable";
      Text ",&nbsp;";
      SpanClose ];
    [ Text "impl&lt;Tz:&nbsp;";
      Anchor "trait" "chrono/offset/trait.TimeZone.html" (Some "trait chrono::offset::TimeZone") "TimeZone";
      Text "&gt; ";
      Anchor "trait" "rustc_serialize/serialize/trait.Encodable.html" (Some "trait rustc_serialize::serialize::Encodable") "Encodable";
      Text " for ";
      Anchor "struct" "chrono/datetime/struct.DateTime.html" (Some "struct chrono::datetime::DateTime") "DateTime";
      Text "&lt;Tz&gt; ";
      SpanOpen "where fmt-newline";
      Text "where";
      Br;
      Text "&nbsp;&nbsp;&nbsp;&nbsp;Tz::";
      Anchor "type" "chrono/offset/trait.TimeZone.html#associatedtype.Offset" (Some "type chrono::offset::TimeZone::Offset") "Offset";
      Text ": ";
      Anchor "trait" "rustc_serialize/serialize/trait.Encodable.html" (Some "trait rustc_serialize::serialize::Encodable") "Encodable";
      Text ",&nbsp;";
      SpanClose ];
    [ Text "impl ";
      Anchor "trait" "rustc_serialize/serialize/trait.Encodable.html" (Some "trait rustc_serialize::serialize::Encodable") "Encodable";
      Text " for ";
      Anchor "enum" "chrono/enum.Weekday.html" (Some "enum chrono::Weekday") "Weekday" ]
  ].

(** The array assigned to the property [egg_mode] of [implementors]. *)
Definition egg_mode : list entry :=
  [ [ Text "impl ";
      Anchor "trait" "rustc_serialize/serialize/trait.Encodable.html" (Some "trait rustc_serialize::serialize::Encodable") "Encodable";
      Text " for ";
      Anchor "struct" "egg_mode/error/struct.TwitterErrors.html" (Some "struct egg_mode::error::TwitterErrors") "TwitterErrors" ];
    [ Text "impl ";
      Anchor "trait" "rustc_serialize/serialize/trait.Encodable.html" (Some "trait rustc_serialize::serialize::Encodable") "Encodable";
      Text " for ";
      Anchor "struct" "egg_mode/error/struct.TwitterErrorCode.html" (Some "struct egg_mode::error::TwitterErrorCode") "TwitterErrorCode" ]
  ].

(** The array assigned to the property [toml] of [implementors]. *)
Definition toml : list entry :=
  [ [ Text "impl ";
      Anchor "trait" "rustc_serialize/serialize/trait.Encodable.html" (Some "trait rustc_serialize::serialize::Encodable") "Encodable";
      Text " for ";
      Anchor "enum" "toml/enum.Value.html" (Some "enum toml::Value") "Value" ]
  ].

(** The array assigned to the property [tweetr] of [implementors]. *)
Definition tweetr : list entry :=
  [ [ Text "impl ";
      Anchor "trait" "rustc_serialize/serialize/trait.Encodable.html" (Some "trait rustc_serialize::serialize::Encodable") "Encodable";
      Text " for ";
      Anchor "struct" "tweetr/ops/struct.User.html" (Some "struct tweetr::ops::User") "User" ];
    [ Text "impl ";
      Anchor "trait" "rustc_serialize/serialize/trait.Encodable.html" (Some "trait rustc_serialize::serialize::Encodable") "Encodable";
      Text " for ";
      Anchor "struct" "tweetr/ops/struct.AppTokens.html" (Some "struct tweetr::ops::AppTokens") "AppTokens" ];
    [ Text "impl ";
      Anchor "trait" "rustc_serialize/serialize/trait.Encodable.html" (Some "trait rustc_serialize::serialize::Encodable") "Encodable";
      Text " for ";
      Anchor "struct" "tweetr/ops/struct.QueuedTweet.html" (Some "struct tweetr::ops::QueuedTweet") "QueuedTweet" ]
  ].

(** The assignments [implementors[crate] = [...]] in the order the script
    makes them, and the quote character its HTML attributes use. *)
Definition table : listing :=
  {| quote := "034"%char;
     assignments :=
       [ ("chrono", chrono);
         ("egg_mode", egg_mode);
         ("toml", toml);
         ("tweetr", tweetr) ] |}.

End Encodable.

(** ** The sidebar index *)

Module Sidebar.

(** The argument of [initSidebarItems] in [tweetr/util/sidebar-items.js]. *)
Definition items : value :=
  VObj
    [ ("fn",
       VArr
         [ VArr [VStr "mul_str";
                 VStr "Create a string consisting of `n` repetitions of `what`."];
           VArr [VStr "parse_relative_time";
                 VStr "Parse a relative datetime into a `Duration`."];
           VArr [VStr "prompt_any_len";
                 VStr "Ask the user to input a string of any length after printing a prompt prompting."];
           VArr [VStr "prompt_exact_len";
                 VStr "Ask the user to input a string of the exact length of `desired_len`, (re)prompting as necessary."];
           VArr [VStr "prompt_multiline";
                 VStr "Ask the user to input a multiline string, (re)prompting as necessary."];
           VArr [VStr "prompt_nonzero_len";
                 VStr "Ask the user to input a string of non-zero length, (re)prompting as necessary."];
           VArr [VStr "span_r";
                 VStr "Runs a closure, returning the duration of time it took to run the closure and the closure's return value."] ]);
      ("static",
       VArr
         [ VArr [VStr "TWEET_DATETIME_FORMAT";
                 VStr "The datetime format returned by Twitter when posting."] ]) ].

(** The file's place in the documentation tree: the module [tweetr::util]. *)
Definition path : string := "tweetr/util/sidebar-items.js".

End Sidebar.

(** An item of a sidebar index: the two-element array [[name, description]]. *)
Definition item_of (v : value) : option (string * string) :=
  match v with
  | VArr [VStr name; VStr description] => Some (name, description)
  | _ => None
  end.

(** The items an index declares under one kind ([index[kind]]). *)
Definition declared (kind : string) (index : value) : list (string * string) :=
  omap item_of (elements (get_prop index kind)).

(** Every item of an index, with the kind it is declared under. *)
Definition all_declared (index : value) : list (string * (string * string)) :=
  flat_map (fun kind => map (pair kind) (declared kind index)) (own_keys index).

(** ** The scripts *)

(** The object an implementor-listing script has built when it reaches its
    last statement: [var implementors = {}] followed by the assignments. *)
Definition implementors_of (l : listing) : value :=
  fold_left
    (fun o a => set_prop o a.1 (VArr (map (fun e => VStr (render (quote l) e)) a.2)))
    (assignments l) (VObj []).

(** The two shapes of script in the repository. *)
Inductive script : Type :=
| ImplementorListing (l : listing)
| SidebarItems (index : value).

(** Running a script in a window of a page. *)
Definition run (host : page) (s : script) (w : gmap string value) : outcome :=
  match s with
  | ImplementorListing l => register host (implementors_of l) w
  | SidebarItems index => call_global host "initSidebarItems" [index] w
  end.

(** The global of the page a script reaches for. *)
Definition entry_point (s : script) : string :=
  match s with
  | ImplementorListing _ => "register_implementors"
  | SidebarItems _ => "initSidebarItems"
  end.

(** What a script does, apart from the window it leaves. *)
Definition effect (host : page) (s : script) (w : gmap string value)
  : list event * completion :=
  (trace (run host s w), result (run host s w)).

Record source_file : Type := SourceFile {
  path : string;
  scripts : list script
}.

Definition source_files : list source_file :=
  [ {| path := "implementors/core/iter/iterator/trait.Iterator.js";
       scripts := [ImplementorListing Iterator.table; ImplementorListing Add.table] |};
    {| path := "implementors/rustc_serialize/serialize/trait.Encodable.js";
       scripts := [ImplementorListing Encodable.table] |};
    {| path := Sidebar.path;
       scripts := [SidebarItems Sidebar.items] |} ].

Definition all_scripts : list script := flat_map scripts source_files.

(** The tables of the implementor-listing scripts. *)
Definition listings : list listing :=
  flat_map (fun s => match s with ImplementorListing l => [l] | SidebarItems _ => [] end)
    all_scripts.

(** Every entry of every table, with the crate it is listed under. *)
Definition listed_entries : list (string * entry) :=
  flat_map (fun l => flat_map (fun a => map (pair a.1) a.2) (assignments l)) listings.

(** ** Vocabulary of the documentation *)

(** The crate of the documented program and its helper module. *)
Definition own_crate : string := "tweetr".
Definition helper_module : string := "tweetr::util".

(** A path is third-party when its crate is not the program's own. *)
Definition third_party (p : string) : bool :=
  negb (String.eqb (crate_of p) own_crate).

(** [in_module m p]: the path [p] lies inside the module [m]. *)
Definition in_module (m p : string) : bool := String.prefix (m +:+ "::") p.

(** The kinds of artifact rustdoc writes into a documentation tree. *)
Variant artifact : Type :=
| SearchIndex
| ImplementorTable
| SidebarIndex.

Definition basename (p : string) : string := Str.after_last "/" p.

(** rustdoc names its artifacts: [search-index.js] at the root,
    [sidebar-items.js] in every module directory, and one file per trait
    below [implementors/]. *)
Definition artifact_of_path (p : string) : option artifact :=
  if String.eqb (basename p) "search-index.js" then Some SearchIndex
  else if String.eqb (basename p) "sidebar-items.js" then Some SidebarIndex
  else if String.prefix "implementors/" p then Some ImplementorTable
  else None.

(** The artifact a script is, by its shape.  No script of the repository
    builds a [searchIndex] object, so no shape maps to [SearchIndex]. *)
Definition artifact_of_script (s : script) : artifact :=
  match s with
  | ImplementorListing _ => ImplementorTable
  | SidebarItems _ => SidebarIndex
  end.

Definition is_search_index (f : source_file) : bool :=
  match artifact_of_path (path f) with
  | Some SearchIndex => true
  | _ => false
  end.

(** The four behaviours a description can tell of. *)
Variant behaviour : Type :=
| RepeatString
| ParseRelativeTime
| PromptInput
| MeasureClosure.

Definition behaviours : list behaviour :=
  [RepeatString; ParseRelativeTime; PromptInput; MeasureClosure].

(** The words by which a description tells of a behaviour. *)
Definition keywords (b : behaviour) : list string :=
  match b with
  | RepeatString => ["repetition"; "repeat"]
  | ParseRelativeTime => ["Parse a relative"; "parse a relative"]
  | PromptInput => ["Ask the user to input"; "prompt"]
  | MeasureClosure => ["duration of time it took"; "closure"]
  end.

Definition describes (b : behaviour) (description : string) : bool :=
  existsb (fun k => Str.contains k description) (keywords b).

(** The behaviours a description falls into. *)
Definition behaviours_of (description : string) : list behaviour :=
  List.filter (fun b => describes b description) behaviours.

(** The words by which a description would tell how input that is not
    accepted is dealt with. *)
Definition recovery_phrases : list string :=
  [ "(re)prompting"; "reprompt"; "retry"; "retries"; "again"; "default";
    "fall back"; "fallback"; "recover"; "error"; "fail"; "panic"; "abort";
    "ignor"; "skip"; "discard"; "truncat"; "reject"; "invalid" ].

Definition recovery_mentions (description : string) : list string :=
  List.filter (fun p => Str.contains p description) recovery_phrases.

(** ** Checks over the tables, as boolean functions *)

(** The implementing type of the entry is third-party or in [tweetr::ops],
    and not in the helper module. *)
Definition implementor_placed (a : string * entry) : bool :=
  match implementing_type a.2 with
  | Some p =>
      (third_party p || in_module "tweetr::ops" p) && negb (in_module helper_module p)
  | None => false
  end.

(** Every symbol the entry refers to is third-party or in [tweetr::ops]. *)
Definition symbols_placed (a : string * entry) : bool :=
  forallb (fun p => third_party p || in_module "tweetr::ops" p)
    (map path_of_title (titles a.2)).

(** The lengths of the assignment statements of a script, as its source
    text has them. *)
Definition statement_lengths (l : listing) : list Z :=
  map (fun a => Z.of_nat (String.length (assignment_source (quote l) a))) (assignments l).

(** ** Tables and sequences of scripts *)

(** The array a script assigns for one crate: its entries as strings. *)
Definition array_of (q : ascii) (es : list entry) : value :=
  VArr (map (fun e => VStr (render q e)) es).

(** The crates a script assigns, in the order of its assignments. *)
Definition assigned (l : listing) : list string := map fst (assignments l).

(** The window a registration script leaves. *)
Definition load (host : page) (w : gmap string value) (l : listing)
  : gmap string value :=
  final (run host (ImplementorListing l) w).

(** The names an object inherits from [Object.prototype]: those of
    ECMAScript and its Annex B, and those older browsers added. *)
Definition object_prototype_names : list string :=
  [ "constructor"; "hasOwnProperty"; "isPrototypeOf"; "propertyIsEnumerable";
    "toLocaleString"; "toString"; "valueOf"; "__proto__";
    "__defineGetter__"; "__defineSetter__"; "__lookupGetter__"; "__lookupSetter__";
    "toSource"; "watch"; "unwatch"; "__noSuchMethod__"; "__count__"; "__parent__" ].

Definition is_digit (c : ascii) : bool :=
  (48 <=? nat_of_ascii c)%nat && (nat_of_ascii c <=? 57)%nat.

Fixpoint all_digits (s : string) : bool :=
  match s with
  | EmptyString => true
  | String c rest => is_digit c && all_digits rest
  end.

(** A key [set_prop] and [own_keys] treat as JavaScript does: it is not
    [__proto__] and it is not written in digits only (so it is no array
    index).  Crate names, which are identifiers, are such keys unless a
    crate is called [__proto__]. *)
Definition plain_key (k : string) : bool :=
  negb (String.eqb k "__proto__") && negb (all_digits k).

(** ** Pages for the examples *)

(** A page whose functions return at once and touch nothing. *)
Definition idle_page : page := fun _ _ w => (w, Normal).

(** A page whose [register_implementors] takes itself out of the window
    and claims [pending_implementors], and whose [initSidebarItems]
    throws. *)
Definition busy_page : page :=
  fun name _ w =>
    if String.eqb name "register_implementors"
    then (<["pending_implementors" := VStr "mine"]> (delete "register_implementors" w),
          Normal)
    else if String.eqb name "initSidebarItems"
    then (w, Thrown (VStr "no sidebar"))
    else (w, Normal).

(** ** Reading an entry *)

(** The pieces of an entry before the text that holds the word [for]. *)
Fixpoint before_for (e : entry) : entry :=
  match e with
  | [] => []
  | Text s :: rest => if Str.contains " for " s then [] else Text s :: before_for rest
  | m :: rest => m :: before_for rest
  end.

(** The paths of the anchors of class [trait]. *)
Definition trait_paths (e : entry) : list string :=
  flat_map
    (fun m =>
       match m with
       | Anchor c _ (Some t) _ => if String.eqb c "trait" then [path_of_title t] else []
       | _ => []
       end) e.

(** The trait an entry implements: the last trait named before [for]
    (bounds on the type parameters come first). *)
Definition implemented_trait (e : entry) : option string :=
  last (trait_paths (before_for e)).

(** The number of text pieces that hold the word [for]. *)
Definition for_count (e : entry) : nat :=
  length (List.filter
            (fun m => match m with Text s => Str.contains " for " s | _ => false end) e).

(** The nesting of [span] tags: the depth after the entry when no closing
    tag comes before its opening tag. *)
Fixpoint span_depth (d : nat) (e : entry) : option nat :=
  match e with
  | [] => Some d
  | SpanOpen _ :: rest => span_depth (S d) rest
  | SpanClose :: rest =>
      match d with
      | O => None
      | S d' => span_depth d' rest
      end
  | _ :: rest => span_depth d rest
  end.

(** The last segment of a path, and the path up to it. *)
Definition last_segment (p : string) : string := Str.after_last ":" p.

Definition module_part (p : string) : string :=
  String.substring 0 (String.length p - String.length (last_segment p)) p.

(** A path with [/] for [::]. *)
Fixpoint slashes (s : string) : string :=
  match s with
  | EmptyString => EmptyString
  | String a rest =>
      match rest with
      | String b rest' =>
          if Ascii.eqb a ":" && Ascii.eqb b ":"
          then String "/" (slashes rest')
          else String a (slashes rest)
      | EmptyString => s
      end
  end.

(** The page rustdoc writes for an item: [crate/module/kind.Name.html]. *)
Definition page_of (kind p : string) : string :=
  slashes (module_part p) +:+ kind +:+ "." +:+ last_segment p +:+ ".html".

Fixpoint ends_with_from (n : nat) (suffix s : string) : bool :=
  match n with
  | O => String.eqb suffix s
  | S n' => match s with
            | EmptyString => false
            | String _ rest => ends_with_from n' suffix rest
            end
  end.

(** [s.endsWith(suffix)]. *)
Definition ends_with (suffix s : string) : bool :=
  ends_with_from (String.length s - String.length suffix) suffix s.

(** A titled anchor names its symbol: its text is the last segment of the
    path, its title is the path, alone or after the class of the anchor,
    and, but for an associated type, it links to the page of the item. *)
Definition names_its_symbol (m : markup) : bool :=
  match m with
  | Anchor c h (Some t) x =>
      String.eqb x (last_segment (path_of_title t)) &&
      (String.eqb t (path_of_title t) || String.eqb t (c +:+ " " +:+ path_of_title t)) &&
      (String.eqb c "type" || ends_with (page_of c (path_of_title t)) h)
  | _ => true
  end.

(** An entry reads [impl ... for ...]: it opens with text that starts with
    [impl], holds the word [for] once, and closes every [span] it opens. *)
Definition reads_as_impl (e : entry) : bool :=
  match e with
  | Text s :: _ => String.prefix "impl" s
  | _ => false
  end &&
  Nat.eqb (for_count e) 1 &&
  match span_depth 0 e with
  | Some O => true
  | _ => false
  end.

(** The entries of a table, crate after crate. *)
Definition entries_of (l : listing) : list entry := flat_map snd (assignments l).

(** A piece of an entry is escaped for a script whose attributes are
    quoted with [q]: its text holds no angle bracket (rustdoc writes
    [&lt;] and [&gt;]) and no attribute value holds [q]. *)
Definition holds (c : ascii) (s : string) : bool := Str.contains (String c "") s.

Definition escaped (q : ascii) (m : markup) : bool :=
  match m with
  | Text s => negb (holds "<" s) && negb (holds ">" s)
  | Anchor c h t x =>
      negb (holds q c) && negb (holds q h) &&
      negb (holds q (default "" t)) &&
      negb (holds "<" x) && negb (holds ">" x)
  | SpanOpen c => negb (holds q c)
  | SpanClose | Br => true
  end.

(** The crates, other than [crate] itself, of the implementing types
    listed under [crate], each once. *)
Definition foreign_crates (crate : string) : list string :=
  remove_dups
    (flat_map
       (fun a : string * entry =>
          match implementing_type a.2 with
          | Some p =>
              if String.eqb a.1 crate && negb (String.eqb (crate_of p) crate)
              then [crate_of p] else []
          | None => []
          end) listed_entries).

(** ** Tactics *)

(** Case analysis on membership in a list that is written out. *)
Ltac each_member H :=
  simpl in H;
  repeat (destruct H as [H|H]; [inversion H; subst; clear H|]);
  [..|destruct H].

(** * Properties *)

(** ** The embedding against the source text *)

(** Rendering the tables gives back the generated lines: the lengths of the
    assignment statements are those of the source files (line 2 of
    [trait.Iterator.js] holds the fourteen assignments of its first script,
    lines 12 to 15 the four of its second, lines 2 to 5 of
    [trait.Encodable.js] the four of that script). *)
Example iterator_source_line :
  fold_right Z.add 0%Z (statement_lengths Iterator.table) = 34423%Z.
Proof. vm_compute. reflexivity. Qed.

Example add_source_lines :
  statement_lengths Add.table = [2346; 1085; 425; 1331]%Z.
Proof. vm_compute. reflexivity. Qed.

Example encodable_source_lines :
  statement_lengths Encodable.table = [3551; 619; 265; 829]%Z.
Proof. vm_compute. reflexivity. Qed.

Example render_vec_map_keys :
  render (quote Iterator.table) <$> Iterator.vec_map !! 3%nat =
  Some ("impl&lt;'a,&nbsp;V&gt; <a class='trait' href='https://doc.rust-lang.org/nightly/core/iter/iterator/trait.Iterator.html' title='core::iter::iterator::Iterator'>Iterator</a> for <a class='struct' href='vec_map/struct.Keys.html' title='vec_map::Keys'>Keys</a>&lt;'a,&nbsp;V&gt;").
Proof. vm_compute. reflexivity. Qed.

Example implementors_keys :
  own_keys (implementors_of Encodable.table) = ["chrono"; "egg_mode"; "toml"; "tweetr"].
Proof. vm_compute. reflexivity. Qed.

(** ** Values *)

Lemma undefined_is_falsy v : v = VUndefined → ToBoolean v = false.
Proof. intros ->. reflexivity. Qed.

Lemma callable_is_truthy v : IsCallable v = true → ToBoolean v = true.
Proof. destruct v; simpl; congruence. Qed.

Lemma callable_is_function v : IsCallable v = true ↔ ∃ name, v = VFun name.
Proof.
  split.
  - destruct v; simpl; try discriminate. eauto.
  - intros [name ->]. reflexivity.
Qed.

(** Truthy is not the same as defined: [null], [false], [0], [NaN] and the
    empty string are defined and falsy. *)
Lemma defined_falsy v :
  is_defined v = true → ToBoolean v = false →
  v = VNull ∨ v = VBool false ∨ v = VNum 0 ∨ v = VNaN ∨ v = VStr "".
Proof.
  destruct v as [ | |b|n| |s| | | ]; simpl; try discriminate; intros _ H; auto.
  - destruct b; [discriminate | auto].
  - apply negb_false_iff, Z.eqb_eq in H. subst. auto 6.
  - apply negb_false_iff, String.eqb_eq in H. subst. auto 6.
Qed.

Lemma assoc_get_set_eq k v props : assoc_get k (assoc_set k v props) = v.
Proof.
  induction props as [|[k' v'] rest IH]; simpl.
  - now rewrite String.eqb_refl.
  - destruct (String.eqb k' k) eqn:E; simpl.
    + now rewrite String.eqb_refl.
    + now rewrite E.
Qed.

Lemma assoc_get_set_ne k k' v props :
  k ≠ k' → assoc_get k' (assoc_set k v props) = assoc_get k' props.
Proof.
  intros Hne. induction props as [|[k0 v0] rest IH]; simpl.
  - destruct (String.eqb k k') eqn:E; [|reflexivity].
    apply String.eqb_eq in E. contradiction.
  - destruct (String.eqb k0 k) eqn:E; simpl.
    + apply String.eqb_eq in E. subst k0.
      destruct (String.eqb k k') eqn:E'; [|reflexivity].
      apply String.eqb_eq in E'. contradiction.
    + destruct (String.eqb k0 k'); [reflexivity | exact IH].
Qed.

(** ** The registration tail *)

Section Register.

Variable host : page.
Variable implementors : value.
Variable w : gmap string value.

(** A function is installed: one call, no write of the script's own; the
    function decides the rest. *)
Lemma register_calls (name : string) :
  window_get w "register_implementors" = VFun name →
  register host implementors w =
  {| final := (host name [implementors] w).1;
     trace := [Call (VFun name) [implementors]];
     result := (host name [implementors] w).2 |}.
Proof. intros Hf. unfold register. rewrite Hf. reflexivity. Qed.

(** Nothing truthy is installed: one write, no call. *)
Lemma register_stores :
  ToBoolean (window_get w "register_implementors") = false →
  register host implementors w =
  {| final := <["pending_implementors" := implementors]> w;
     trace := [Write "pending_implementors" implementors];
     result := Normal |}.
Proof. intros Hf. unfold register. now rewrite Hf. Qed.

(** Something truthy that is no function is installed: the call throws,
    and nothing was done. *)
Lemma register_throws :
  ToBoolean (window_get w "register_implementors") = true →
  IsCallable (window_get w "register_implementors") = false →
  register host implementors w = {| final := w; trace := []; result := TypeError |}.
Proof.
  intros Ht Hc. unfold register. rewrite Ht.
  destruct (window_get w "register_implementors"); try reflexivity; discriminate Hc.
Qed.

(** The three cases are all there are, and no two hold together. *)
Lemma register_cases :
  let f := window_get w "register_implementors" in
  (IsCallable f = true ∧ ToBoolean f = true) ∨
  (IsCallable f = false ∧ ToBoolean f = false) ∨
  (IsCallable f = false ∧ ToBoolean f = true).
Proof.
  intros f. destruct (IsCallable f) eqn:Hc.
  - left. split; [reflexivity | now apply callable_is_truthy].
  - right. destruct (ToBoolean f); [right | left]; auto.
Qed.

End Register.

Lemma window_get_insert_ne (w : gmap string value) k k' v :
  k ≠ k' → window_get (<[k := v]> w) k' = window_get w k'.
Proof. intros Hne. unfold window_get. now rewrite lookup_insert_ne. Qed.

Lemma window_get_insert_eq (w : gmap string value) k v :
  window_get (<[k := v]> w) k = v.
Proof. unfold window_get. now rewrite lookup_insert_eq. Qed.

Lemma window_get_agree (w1 w2 : gmap string value) k :
  w1 !! k = w2 !! k → window_get w1 k = window_get w2 k.
Proof. unfold window_get. now intros ->. Qed.

Lemma call_trace (host : page) (f : value) (args : list value) (w1 w2 : gmap string value) :
  trace (call host f args w1) = trace (call host f args w2).
Proof. now destruct f. Qed.

Lemma call_nothing (host : page) (f : value) (args : list value) (w : gmap string value) :
  calls (trace (call host f args w)) = [] →
  call host f args w = {| final := w; trace := []; result := TypeError |}.
Proof. destruct f; simpl; try reflexivity. discriminate. Qed.

(** ** Claims about the registration scripts *)

(** C8, as the code has it.  Running an implementor registration script in
    any window of any page does exactly one of three things, decided by
    the value [f] of [window.register_implementors].  When [f] is a
    function the script calls it once with its table and writes nothing
    itself: the window it leaves and the way it completes are those of the
    function.  When [f] is falsy ([undefined], but also [null], [false],
    [0], [NaN] or the empty string) it writes the table to
    [window.pending_implementors], calls nothing and changes nothing else.
    When [f] is truthy and not a function the call throws [TypeError] and
    the script has neither called nor written anything. *)
Theorem register_one_of_three (host : page) (l : listing) (w : gmap string value) :
  let f := window_get w "register_implementors" in
  let table := implementors_of l in
  let o := run host (ImplementorListing l) w in
  (∀ name, f = VFun name →
     calls (trace o) = [(f, [table])] ∧ writes (trace o) = [] ∧
     final o = (host name [table] w).1 ∧ result o = (host name [table] w).2) ∧
  (ToBoolean f = false →
     calls (trace o) = [] ∧ writes (trace o) = [("pending_implementors", table)] ∧
     final o = <["pending_implementors" := table]> w ∧ result o = Normal) ∧
  (ToBoolean f = true → IsCallable f = false →
     calls (trace o) = [] ∧ writes (trace o) = [] ∧
     final o = w ∧ result o = TypeError) ∧
  ((IsCallable f = true ∧ ToBoolean f = true) ∨
   (IsCallable f = false ∧ ToBoolean f = false) ∨
   (IsCallable f = false ∧ ToBoolean f = true)).
Proof.
  intros f table o. subst o. simpl run.
  split; [|split; [|split]].
  - intros name Hf. rewrite (register_calls _ _ _ name Hf). simpl. rewrite Hf. auto.
  - intros Hf. rewrite (register_stores _ _ _ Hf). simpl. auto.
  - intros Ht Hc. rewrite (register_throws _ _ _ Ht Hc). simpl. auto.
  - apply register_cases.
Qed.

(** The three branches of [register_one_of_three] at three windows: a
    function installed (on a page whose function claims
    [pending_implementors] for itself), nothing installed, and a number
    installed. *)
Lemma register_one_of_three_witness :
  let table := implementors_of Add.table in
  let run_in w := run busy_page (ImplementorListing Add.table) w in
  let installed : gmap string value :=
    {[ "register_implementors" := VFun "register_implementors" ]} in
  let broken : gmap string value := {[ "register_implementors" := VNum 1 ]} in
  calls (trace (run_in installed)) = [(VFun "register_implementors", [table])] ∧
  final (run_in installed) = {[ "pending_implementors" := VStr "mine" ]} ∧
  final (run_in ∅) = {[ "pending_implementors" := table ]} ∧
  result (run_in broken) = TypeError.
Proof.
  intros table run_in installed broken.
  split; [|split; [|split]].
  - destruct (register_one_of_three busy_page Add.table installed) as (H & _).
    destruct (H "register_implementors" eq_refl) as (Hcalls & _). exact Hcalls.
  - destruct (register_one_of_three busy_page Add.table installed) as (H & _).
    destruct (H "register_implementors" eq_refl) as (_ & _ & Hfinal & _).
    subst run_in. cbv beta. rewrite Hfinal. apply map_eq. intros k.
    unfold busy_page, installed. simpl.
    destruct (decide (k = "pending_implementors")) as [->|Hk].
    + now rewrite !lookup_insert_eq.
    + rewrite lookup_insert_ne by congruence. rewrite delete_singleton_eq.
      now rewrite lookup_singleton_ne by congruence.
  - destruct (register_one_of_three busy_page Add.table ∅) as (_ & H & _).
    destruct (H eq_refl) as (_ & _ & Hfinal & _). exact Hfinal.
  - destruct (register_one_of_three busy_page Add.table broken) as (_ & _ & H & _).
    destruct (H eq_refl eq_refl) as (_ & _ & _ & Hresult). exact Hresult.
Defined.

(** C8, as the claim words it, fails at two windows.  With
    [window.register_implementors = 1] (defined, not a function) the script
    performs neither action: it throws.  With
    [window.register_implementors = 0] (defined, falsy) it does not call
    but writes [window.pending_implementors]. *)
Lemma register_defined_not_called :
  let s := ImplementorListing Encodable.table in
  let one : gmap string value := {[ "register_implementors" := VNum 1 ]} in
  let zero : gmap string value := {[ "register_implementors" := VNum 0 ]} in
  (is_defined (window_get one "register_implementors") = true ∧
   trace (run idle_page s one) = [] ∧
   final (run idle_page s one) !! "pending_implementors" = None ∧
   result (run idle_page s one) = TypeError) ∧
  (is_defined (window_get zero "register_implementors") = true ∧
   calls (trace (run idle_page s zero)) = [] ∧
   final (run idle_page s zero) !! "pending_implementors" =
     Some (implementors_of Encodable.table)).
Proof.
  intros s one zero. subst s. simpl run. split.
  - rewrite register_throws by reflexivity. simpl.
    split; [reflexivity|]. split; [reflexivity|]. split; reflexivity.
  - rewrite register_stores by reflexivity. simpl.
    split; [reflexivity|]. split; [reflexivity|].
    apply lookup_insert_eq.
Qed.

(** C9.  In a window whose [register_implementors] is undefined, a
    registration script leaves the window as it was but for
    [pending_implementors], which now holds the script's own table, and it
    calls nothing.  A second script run after it does the same with its
    table: the window it leaves is the one it would have left had the first
    never run, so a crate the second table lacks has no entry in
    [pending_implementors], whatever the first table held for it. *)
Theorem pending_overwritten (host : page) (l1 l2 : listing) (w : gmap string value) :
  window_get w "register_implementors" = VUndefined →
  let o1 := run host (ImplementorListing l1) w in
  let o2 := run host (ImplementorListing l2) (final o1) in
  final o1 = <["pending_implementors" := implementors_of l1]> w ∧
  (∀ prop, prop ≠ "pending_implementors" → final o1 !! prop = w !! prop) ∧
  calls (trace o1) = [] ∧
  final o2 = <["pending_implementors" := implementors_of l2]> w ∧
  window_get (final o2) "pending_implementors" = implementors_of l2 ∧
  (∀ crate, get_prop (implementors_of l2) crate = VUndefined →
     get_prop (window_get (final o2) "pending_implementors") crate = VUndefined).
Proof.
  intros Hu o1 o2.
  assert (H1 : o1 = {| final := <["pending_implementors" := implementors_of l1]> w;
                       trace := [Write "pending_implementors" (implementors_of l1)];
                       result := Normal |}).
  { subst o1. simpl run. apply register_stores. now rewrite Hu. }
  assert (H2 : final o2 = <["pending_implementors" := implementors_of l2]> w).
  { subst o2. rewrite H1. simpl run. rewrite register_stores.
    - simpl. apply insert_insert_eq.
    - simpl final. rewrite window_get_insert_ne by discriminate. now rewrite Hu. }
  rewrite H2, H1, window_get_insert_eq. simpl.
  repeat split; auto.
  intros prop Hne. now apply lookup_insert_ne.
Qed.

(** [pending_overwritten] on a fresh page: the [Iterator] script, then the
    [Encodable] script.  The entry of [vec_map] that the first table held
    is gone. *)
Lemma pending_overwritten_witness :
  window_get ∅ "register_implementors" = VUndefined ∧
  is_defined (get_prop (implementors_of Iterator.table) "vec_map") = true ∧
  get_prop
    (window_get
       (final (run idle_page (ImplementorListing Encodable.table)
                 (final (run idle_page (ImplementorListing Iterator.table) ∅))))
       "pending_implementors")
    "vec_map" = VUndefined.
Proof.
  assert (Hu : window_get (∅ : gmap string value) "register_implementors" = VUndefined)
    by reflexivity.
  split; [exact Hu|]. split; [vm_compute; reflexivity|].
  destruct (pending_overwritten idle_page Iterator.table Encodable.table ∅ Hu)
    as (_ & _ & _ & _ & _ & H).
  apply H. vm_compute. reflexivity.
Defined.

(** C3, as the code has it.  What a script does itself depends on the
    window only through the one global it reaches for
    ([window.register_implementors] for a registration script,
    [initSidebarItems] for the sidebar script): in two windows that agree
    on that global it makes the same call with the same argument, or the
    same write, or neither, and when it calls nothing it also completes
    the same way.  When it calls a function, how the run completes is up
    to that function, which reads what it likes of the window. *)
Theorem effect_reads_entry_point (host : page) (s : script) (w1 w2 : gmap string value) :
  w1 !! entry_point s = w2 !! entry_point s →
  trace (run host s w1) = trace (run host s w2) ∧
  (calls (trace (run host s w1)) = [] → effect host s w1 = effect host s w2).
Proof.
  intros Hagree. unfold effect.
  destruct s as [l | index]; simpl in *.
  - apply window_get_agree in Hagree. unfold register. rewrite Hagree.
    destruct (ToBoolean _); [|now split].
    split; [apply call_trace|].
    intros Hnone. rewrite (call_nothing _ _ _ _ Hnone).
    rewrite (call_trace host _ _ w1 w2) in Hnone. now rewrite (call_nothing _ _ _ _ Hnone).
  - unfold call_global. rewrite Hagree.
    destruct (w2 !! _) as [f|]; [|now split].
    split; [apply call_trace|].
    intros Hnone. rewrite (call_nothing _ _ _ _ Hnone).
    rewrite (call_trace host _ _ w1 w2) in Hnone. now rewrite (call_nothing _ _ _ _ Hnone).
Qed.

Lemma effect_reads_entry_point_witness :
  let s := ImplementorListing Encodable.table in
  let w1 : gmap string value := ∅ in
  let w2 : gmap string value := {[ "searchIndex" := VObj [] ]} in
  w1 !! entry_point s = w2 !! entry_point s ∧
  trace (run busy_page s w1) = trace (run busy_page s w2).
Proof.
  intros s w1 w2.
  assert (H : w1 !! entry_point s = w2 !! entry_point s) by reflexivity.
  split; [exact H | exact (proj1 (effect_reads_entry_point busy_page s w1 w2 H))].
Defined.

(** C3, as the claim words it, fails: the [Encodable] script writes in a
    fresh window and calls in a window where the page has installed its
    function. *)
Lemma effect_branches_on_window :
  let s := ImplementorListing Encodable.table in
  let fresh : gmap string value := ∅ in
  let installed : gmap string value :=
    {[ "register_implementors" := VFun "register_implementors" ]} in
  In s all_scripts ∧
  effect idle_page s fresh =
    ([Write "pending_implementors" (implementors_of Encodable.table)], Normal) ∧
  effect idle_page s installed =
    ([Call (VFun "register_implementors") [implementors_of Encodable.table]], Normal) ∧
  effect idle_page s fresh ≠ effect idle_page s installed.
Proof.
  intros s fresh installed.
  assert (Hf : effect idle_page s fresh =
    ([Write "pending_implementors" (implementors_of Encodable.table)], Normal)).
  { unfold effect. subst s. simpl run. now rewrite register_stores. }
  assert (Hi : effect idle_page s installed =
    ([Call (VFun "register_implementors") [implementors_of Encodable.table]], Normal)).
  { unfold effect. subst s. simpl run.
    now rewrite (register_calls _ _ _ "register_implementors"). }
  split; [|split; [exact Hf|split; [exact Hi|]]].
  - right. right. left. reflexivity.
  - rewrite Hf, Hi. discriminate.
Qed.

(** ** Claims about the sidebar index *)

Lemma sidebar_declares :
  all_declared Sidebar.items =
  [ ("fn", ("mul_str", "Create a string consisting of `n` repetitions of `what`."));
    ("fn", ("parse_relative_time", "Parse a relative datetime into a `Duration`."));
    ("fn", ("prompt_any_len",
            "Ask the user to input a string of any length after printing a prompt prompting."));
    ("fn", ("prompt_exact_len",
            "Ask the user to input a string of the exact length of `desired_len`, (re)prompting as necessary."));
    ("fn", ("prompt_multiline",
            "Ask the user to input a multiline string, (re)prompting as necessary."));
    ("fn", ("prompt_nonzero_len",
            "Ask the user to input a string of non-zero length, (re)prompting as necessary."));
    ("fn", ("span_r",
            "Runs a closure, returning the duration of time it took to run the closure and the closure's return value."));
    ("static", ("TWEET_DATETIME_FORMAT",
                "The datetime format returned by Twitter when posting.")) ].
Proof. reflexivity. Qed.

(** C1, as the code has it.  Every function of the [tweetr::util] index has
    a description that falls into exactly one of the four behaviours; the
    index also declares the static [TWEET_DATETIME_FORMAT], whose
    description falls into none. *)
Theorem sidebar_behaviours (kind name description : string) :
  In (kind, (name, description)) (all_declared Sidebar.items) →
  (kind = "fn" ∧ ∃ b, behaviours_of description = [b]) ∨
  (kind = "static" ∧ name = "TWEET_DATETIME_FORMAT" ∧ behaviours_of description = []).
Proof.
  rewrite sidebar_declares. intros H. each_member H;
    first [ left; split; [reflexivity | eexists; vm_compute; reflexivity]
          | right; repeat split; vm_compute; reflexivity ].
Qed.

Lemma sidebar_behaviours_witness :
  In ("fn", ("span_r",
       "Runs a closure, returning the duration of time it took to run the closure and the closure's return value."))
     (all_declared Sidebar.items) ∧
  behaviours_of
    "Runs a closure, returning the duration of time it took to run the closure and the closure's return value."
  = [MeasureClosure].
Proof.
  assert (H : In ("fn", ("span_r",
       "Runs a closure, returning the duration of time it took to run the closure and the closure's return value."))
     (all_declared Sidebar.items)) by (simpl; auto 10).
  split; [exact H|].
  destruct (sidebar_behaviours _ _ _ H) as [(_ & b & Hb) | (Hk & _)].
  - rewrite Hb. vm_compute in Hb. now inversion Hb.
  - discriminate Hk.
Defined.

(** C1, as the claim words it, fails at the static item of the index: its
    description tells of none of the four behaviours. *)
Lemma static_item_no_behaviour :
  In ("static", ("TWEET_DATETIME_FORMAT",
                 "The datetime format returned by Twitter when posting."))
     (all_declared Sidebar.items) ∧
  behaviours_of "The datetime format returned by Twitter when posting." = [] ∧
  ¬ (∀ kind name description,
       In (kind, (name, description)) (all_declared Sidebar.items) →
       ∃ b, behaviours_of description = [b]).
Proof.
  assert (H : In ("static", ("TWEET_DATETIME_FORMAT",
                 "The datetime format returned by Twitter when posting."))
     (all_declared Sidebar.items)) by (simpl; auto 10).
  split; [exact H|]. split; [reflexivity|].
  intros Hall. destruct (Hall _ _ _ H) as [b Hb]. vm_compute in Hb. discriminate Hb.
Qed.

(** C5.  The description of a function of the index names no way of
    dealing with input that is not accepted, or names (re)prompting and
    nothing else; the functions whose descriptions name it are
    [prompt_exact_len], [prompt_multiline] and [prompt_nonzero_len]. *)
Theorem only_reprompting (name description : string) :
  In (name, description) (declared "fn" Sidebar.items) →
  (recovery_mentions description = [] ∨
   recovery_mentions description = ["(re)prompting"]) ∧
  (recovery_mentions description = ["(re)prompting"] ↔
   In name ["prompt_exact_len"; "prompt_multiline"; "prompt_nonzero_len"]).
Proof.
  intros H. each_member H;
    (split;
     [ first [ left; vm_compute; reflexivity | right; vm_compute; reflexivity ]
     | split;
       [ intros Hre; first [ simpl; tauto | vm_compute in Hre; discriminate Hre ]
       | intros Hin; first [ vm_compute; reflexivity
                           | simpl in Hin; decompose [or] Hin;
                             first [ discriminate | contradiction ] ] ] ]).
Qed.

Lemma only_reprompting_witness :
  In ("prompt_exact_len",
      "Ask the user to input a string of the exact length of `desired_len`, (re)prompting as necessary.")
     (declared "fn" Sidebar.items) ∧
  recovery_mentions
    "Ask the user to input a string of the exact length of `desired_len`, (re)prompting as necessary."
  = ["(re)prompting"].
Proof.
  assert (H : In ("prompt_exact_len",
      "Ask the user to input a string of the exact length of `desired_len`, (re)prompting as necessary.")
     (declared "fn" Sidebar.items)) by (simpl; auto 10).
  split; [exact H|].
  destruct (only_reprompting _ _ H) as (_ & Hre).
  apply Hre. simpl. tauto.
Defined.

(** C6, as the code has it.  Every item of the index is a function, except
    one: the static [TWEET_DATETIME_FORMAT]. *)
Theorem functions_and_one_static :
  (∀ kind name description,
     In (kind, (name, description)) (all_declared Sidebar.items) →
     kind = "fn" ∨ (kind = "static" ∧ name = "TWEET_DATETIME_FORMAT")) ∧
  length (List.filter (fun it => negb (String.eqb it.1 "fn")) (all_declared Sidebar.items)) = 1 ∧
  length (List.filter (fun it => String.eqb it.1 "fn") (all_declared Sidebar.items)) = 7.
Proof.
  split; [|split; reflexivity].
  intros kind name description. rewrite sidebar_declares. intros H.
  each_member H; first [ left; reflexivity | right; split; reflexivity ].
Qed.

(** C6, as the claim words it, fails: the index has a [static] key, and an
    item under it. *)
Lemma index_declares_static :
  In "static" (own_keys Sidebar.items) ∧
  declared "static" Sidebar.items ≠ [] ∧
  ¬ (∀ kind item, In (kind, item) (all_declared Sidebar.items) → kind = "fn").
Proof.
  split; [simpl; auto|]. split; [discriminate|].
  intros Hall.
  assert (H : In ("static", ("TWEET_DATETIME_FORMAT",
                 "The datetime format returned by Twitter when posting."))
     (all_declared Sidebar.items)) by (simpl; auto 10).
  apply Hall in H. discriminate H.
Qed.

(** C10.  The object passed to [initSidebarItems] has the two keys [fn] and
    [static] and no other; [fn] holds seven items and [static] holds one,
    [TWEET_DATETIME_FORMAT], with its description; and where the page
    defines [initSidebarItems] the script calls it once, with that
    object, whatever the page is. *)
Theorem sidebar_index_shape :
  own_keys Sidebar.items = ["fn"; "static"] ∧
  length (elements (get_prop Sidebar.items "fn")) = 7 ∧
  map fst (declared "fn" Sidebar.items) =
    ["mul_str"; "parse_relative_time"; "prompt_any_len"; "prompt_exact_len";
     "prompt_multiline"; "prompt_nonzero_len"; "span_r"] ∧
  elements (get_prop Sidebar.items "static") =
    [VArr [VStr "TWEET_DATETIME_FORMAT";
           VStr "The datetime format returned by Twitter when posting."]] ∧
  declared "static" Sidebar.items =
    [("TWEET_DATETIME_FORMAT", "The datetime format returned by Twitter when posting.")] ∧
  (∀ (host : page) (w : gmap string value) name,
     trace (run host (SidebarItems Sidebar.items) (<["initSidebarItems" := VFun name]> w)) =
     [Call (VFun name) [Sidebar.items]]).
Proof.
  split; [reflexivity|]. split; [reflexivity|]. split; [reflexivity|].
  split; [reflexivity|]. split; [reflexivity|].
  intros host w name. simpl. unfold call_global. now rewrite lookup_insert_eq.
Qed.

(** ** Claims about the implementor tables *)

Lemma tables_listed : length listed_entries = 114.
Proof. reflexivity. Qed.

Lemma implementors_placed : forallb implementor_placed listed_entries = true.
Proof. vm_compute. reflexivity. Qed.

Lemma all_symbols_placed : forallb symbols_placed listed_entries = true.
Proof. vm_compute. reflexivity. Qed.

Lemma implementor_placed_spec (a : string * entry) :
  implementor_placed a = true →
  ∃ p, implementing_type a.2 = Some p ∧
       (third_party p = true ∨ in_module "tweetr::ops" p = true) ∧
       in_module helper_module p = false.
Proof.
  unfold implementor_placed. destruct (implementing_type a.2) as [p|]; [|discriminate].
  intros [Hp Hh]%andb_true_iff. exists p. split; [reflexivity|]. split.
  - now apply orb_true_iff.
  - now apply negb_true_iff.
Qed.

Lemma symbols_placed_spec (a : string * entry) :
  symbols_placed a = true →
  ∀ q, In q (map path_of_title (titles a.2)) →
       third_party q = true ∨ in_module "tweetr::ops" q = true.
Proof.
  unfold symbols_placed. intros H q Hq.
  apply orb_true_iff. revert q Hq. now apply forallb_forall.
Qed.

(** The last entries of the [Encodable] table: those of the crate
    [tweetr]. *)
Lemma tweetr_user_listed :
  nth_error listed_entries 111 =
  Some ("tweetr",
        [ Text "impl ";
          Anchor "trait" "rustc_serialize/serialize/trait.Encodable.html"
            (Some "trait rustc_serialize::serialize::Encodable") "Encodable";
          Text " for ";
          Anchor "struct" "tweetr/ops/struct.User.html"
            (Some "struct tweetr::ops::User") "User" ]).
Proof. vm_compute. reflexivity. Qed.

(** C2, as the code has it.  Every implementing type of the tables is
    third-party or lies in [tweetr::ops], and none lies in the helper
    module [tweetr::util]; the same holds of every symbol an entry refers
    to. *)
Theorem implementors_third_party_or_ops (crate : string) (e : entry) :
  In (crate, e) listed_entries →
  ∃ p, implementing_type e = Some p ∧
       (third_party p = true ∨ in_module "tweetr::ops" p = true) ∧
       in_module helper_module p = false ∧
       (∀ q, In q (map path_of_title (titles e)) →
             third_party q = true ∨ in_module "tweetr::ops" q = true).
Proof.
  intros H.
  pose proof (proj1 (forallb_forall _ _) implementors_placed _ H) as Hp.
  pose proof (proj1 (forallb_forall _ _) all_symbols_placed _ H) as Hs.
  destruct (implementor_placed_spec _ Hp) as (p & Hty & Hplace & Hhelper).
  exists p. repeat split; try assumption.
  exact (symbols_placed_spec _ Hs).
Qed.

Lemma implementors_third_party_or_ops_witness :
  ∃ e p, In ("tweetr", e) listed_entries ∧
         implementing_type e = Some p ∧
         in_module helper_module p = false.
Proof.
  pose proof (nth_error_In _ _ tweetr_user_listed) as H.
  destruct (implementors_third_party_or_ops _ _ H) as (p & Hty & _ & Hhelper & _).
  eexists. exists p. split; [exact H|]. split; [exact Hty | exact Hhelper].
Defined.

(** C2, as the claim words it, fails at [implementors["tweetr"]] of the
    [Encodable] table: [tweetr::ops::User] implements [Encodable], and it
    is neither third-party nor of the helper module. *)
Lemma ops_user_not_helper :
  (∃ e, In ("tweetr", e) listed_entries ∧
        implementing_type e = Some "tweetr::ops::User") ∧
  third_party "tweetr::ops::User" = false ∧
  in_module helper_module "tweetr::ops::User" = false ∧
  ¬ (∀ crate e p, In (crate, e) listed_entries → implementing_type e = Some p →
       third_party p = true ∨ in_module helper_module p = true).
Proof.
  pose proof (nth_error_In _ _ tweetr_user_listed) as H.
  split; [eexists; split; [exact H | reflexivity]|].
  split; [reflexivity|]. split; [reflexivity|].
  intros Hall. destruct (Hall _ _ "tweetr::ops::User" H eq_refl); discriminate.
Qed.

(** ** Claims about the files *)

(** C4, as the code has it.  Every source file is an implementor table or
    a sidebar index, by its path and by the shape of the scripts it holds;
    both kinds are there. *)
Theorem artifacts_of_repository (f : source_file) :
  In f source_files →
  (artifact_of_path (path f) = Some ImplementorTable ∨
   artifact_of_path (path f) = Some SidebarIndex) ∧
  scripts f ≠ [] ∧
  Forall (fun s => artifact_of_path (path f) = Some (artifact_of_script s)) (scripts f) ∧
  is_search_index f = false.
Proof.
  intros H. simpl in H. destruct H as [<-|[<-|[<-|[]]]].
  - split; [left; reflexivity|]. split; [discriminate|].
    split; [repeat constructor | reflexivity].
  - split; [left; reflexivity|]. split; [discriminate|].
    split; [repeat constructor | reflexivity].
  - split; [right; reflexivity|]. split; [discriminate|].
    split; [repeat constructor | reflexivity].
Qed.

Lemma artifacts_of_repository_witness :
  let f := {| path := Sidebar.path; scripts := [SidebarItems Sidebar.items] |} in
  In f source_files ∧ artifact_of_path (path f) = Some SidebarIndex.
Proof.
  intros f.
  assert (H : In f source_files) by (simpl; auto).
  split; [exact H|].
  destruct (artifacts_of_repository f H) as ([Hi | Hs] & _).
  - discriminate Hi.
  - exact Hs.
Defined.

(** C4, as the claim words it, fails: none of the three source files is a
    search index. *)
Lemma no_search_index :
  map path source_files =
    [ "implementors/core/iter/iterator/trait.Iterator.js";
      "implementors/rustc_serialize/serialize/trait.Encodable.js";
      "tweetr/util/sidebar-items.js" ] ∧
  map (fun f => artifact_of_path (path f)) source_files =
    [Some ImplementorTable; Some ImplementorTable; Some SidebarIndex] ∧
  map artifact_of_script all_scripts =
    [ImplementorTable; ImplementorTable; ImplementorTable; SidebarIndex] ∧
  ¬ (∃ f, In f source_files ∧ artifact_of_path (path f) = Some SearchIndex).
Proof.
  split; [reflexivity|]. split; [reflexivity|]. split; [reflexivity|].
  intros (f & H & Hf). simpl in H.
  destruct H as [<-|[<-|[<-|[]]]]; discriminate Hf.
Qed.

(** * Further properties *)

(** ** Building the table *)

Section Build.

Variable q : ascii.

(** One assignment [implementors[a.1] = [...]] on the properties of the
    object. *)
Let assign (props : list (string * value)) (a : string * list entry)
  : list (string * value) :=
  assoc_set a.1 (array_of q a.2) props.

Lemma build_is_object (asg : list (string * list entry)) (props : list (string * value)) :
  fold_left
    (fun o a => set_prop o a.1 (VArr (map (fun e => VStr (render q e)) a.2)))
    asg (VObj props)
  = VObj (fold_left assign asg props).
Proof.
  revert props. induction asg as [|a asg IH]; intros props; simpl.
  - reflexivity.
  - apply IH.
Qed.

Lemma assoc_get_absent k (props : list (string * value)) :
  ¬ In k (map fst props) → assoc_get k props = VUndefined.
Proof.
  induction props as [|[k' v'] rest IH]; simpl; intros Hk.
  - reflexivity.
  - destruct (String.eqb k' k) eqn:E.
    + apply String.eqb_eq in E. subst. tauto.
    + apply IH. tauto.
Qed.

Lemma assoc_set_keys_old k v (props : list (string * value)) :
  In k (map fst props) → map fst (assoc_set k v props) = map fst props.
Proof.
  induction props as [|[k' v'] rest IH]; simpl; intros Hk.
  - destruct Hk.
  - destruct (String.eqb k' k) eqn:E; simpl.
    + apply String.eqb_eq in E. now subst k'.
    + apply String.eqb_neq in E. f_equal. apply IH. tauto.
Qed.

Lemma assoc_set_keys_new k v (props : list (string * value)) :
  ¬ In k (map fst props) → map fst (assoc_set k v props) = map fst props ++ [k].
Proof.
  induction props as [|[k' v'] rest IH]; simpl; intros Hk.
  - reflexivity.
  - destruct (String.eqb k' k) eqn:E; simpl.
    + apply String.eqb_eq in E. subst k'. tauto.
    + f_equal. apply IH. tauto.
Qed.

Lemma in_keys_dec k (props : list (string * value)) :
  In k (map fst props) ∨ ¬ In k (map fst props).
Proof.
  destruct (in_dec String.string_dec k (map fst props)); [now left | now right].
Qed.

Lemma assoc_set_in k v k' (props : list (string * value)) :
  In k' (map fst (assoc_set k v props)) ↔ k' = k ∨ In k' (map fst props).
Proof.
  destruct (in_keys_dec k props) as [B|B].
  - rewrite assoc_set_keys_old by exact B. split; [tauto|]. intros [->|H]; assumption.
  - rewrite assoc_set_keys_new by exact B. rewrite in_app_iff. simpl.
    split; [intros [H|[->|[]]]; tauto | intros [->|H]; tauto].
Qed.

Lemma assoc_set_nodup k v (props : list (string * value)) :
  List.NoDup (map fst props) → List.NoDup (map fst (assoc_set k v props)).
Proof.
  intros Hnd. destruct (in_keys_dec k props) as [B|B].
  - now rewrite assoc_set_keys_old.
  - rewrite assoc_set_keys_new by exact B.
    rewrite <- (rev_involutive (map fst props ++ [k])).
    apply List.NoDup_rev. rewrite rev_app_distr. simpl.
    constructor; [now rewrite <- in_rev | now apply List.NoDup_rev].
Qed.

(** Reading a crate after the assignments: the last assignment to it
    decides, and a crate never assigned keeps what the object held. *)
Lemma build_get_last pre k es post (props : list (string * value)) :
  ¬ In k (map fst post) →
  assoc_get k (fold_left assign (pre ++ (k, es) :: post) props) = array_of q es.
Proof.
  intros Hpost. rewrite fold_left_app. simpl.
  generalize (fold_left assign pre props). intros props0.
  assert (H : assoc_get k (assign props0 (k, es)) = array_of q es)
    by apply assoc_get_set_eq.
  revert H. generalize (assign props0 (k, es)). clear props0.
  induction post as [|[k' es'] post IH]; intros props1 H; simpl.
  - exact H.
  - apply IH.
    + simpl in Hpost. tauto.
    + unfold assign at 1. simpl. rewrite assoc_get_set_ne; [exact H|].
      simpl in Hpost. intros ->. tauto.
Qed.

Lemma build_get_other k asg (props : list (string * value)) :
  ¬ In k (map fst asg) →
  assoc_get k (fold_left assign asg props) = assoc_get k props.
Proof.
  revert props. induction asg as [|[k' es'] asg IH]; intros props Hk; simpl.
  - reflexivity.
  - rewrite IH by (simpl in Hk; tauto).
    unfold assign. simpl. apply assoc_get_set_ne. simpl in Hk. intros ->. tauto.
Qed.

Lemma build_in k asg (props : list (string * value)) :
  In k (map fst (fold_left assign asg props)) ↔
  In k (map fst asg) ∨ In k (map fst props).
Proof.
  revert props. induction asg as [|[k' es'] asg IH]; intros props; simpl.
  - tauto.
  - rewrite IH. unfold assign. simpl. rewrite assoc_set_in. split.
    + intros [H|[->|H]]; tauto.
    + intros [[->|H]|H]; tauto.
Qed.

Lemma build_nodup asg (props : list (string * value)) :
  List.NoDup (map fst props) → List.NoDup (map fst (fold_left assign asg props)).
Proof.
  revert props. induction asg as [|a asg IH]; intros props Hnd; simpl.
  - exact Hnd.
  - apply IH. now apply assoc_set_nodup.
Qed.

Lemma build_order asg (props : list (string * value)) :
  List.NoDup (map fst asg) →
  (∀ k, In k (map fst asg) → ¬ In k (map fst props)) →
  map fst (fold_left assign asg props) = map fst props ++ map fst asg.
Proof.
  revert props. induction asg as [|[k es] asg IH]; intros props Hnd Hfresh; simpl.
  - now rewrite app_nil_r.
  - inversion Hnd as [|? ? Hk Hnd']; subst.
    rewrite IH.
    + unfold assign. simpl.
      rewrite assoc_set_keys_new by (apply Hfresh; simpl; tauto).
      now rewrite <- app_assoc.
    + exact Hnd'.
    + intros k' Hk'. unfold assign. simpl. rewrite assoc_set_in.
      intros [->|H]; [tauto|]. apply (Hfresh k'); simpl; tauto.
Qed.

End Build.

Lemma implementors_of_object (l : listing) :
  implementors_of l =
  VObj (fold_left (fun props a => assoc_set a.1 (array_of (quote l) a.2) props)
          (assignments l) []).
Proof. unfold implementors_of. apply build_is_object. Qed.

(** X1.  Reading a crate of the table a script has built gives the array
    of the last assignment the script makes to that crate. *)
Theorem table_lookup_last_assignment
    (l : listing) (pre post : list (string * list entry)) (crate : string)
    (es : list entry) :
  assignments l = pre ++ (crate, es) :: post →
  ¬ In crate (map fst post) →
  get_prop (implementors_of l) crate = array_of (quote l) es.
Proof.
  intros Hasg Hpost. rewrite implementors_of_object. simpl. rewrite Hasg.
  now apply build_get_last.
Qed.

Lemma table_lookup_last_assignment_witness :
  get_prop (implementors_of Encodable.table) "toml" =
  array_of (quote Encodable.table) Encodable.toml.
Proof.
  apply (table_lookup_last_assignment Encodable.table
           [("chrono", Encodable.chrono); ("egg_mode", Encodable.egg_mode)]
           [("tweetr", Encodable.tweetr)]).
  - reflexivity.
  - simpl. intros [H|[]]. discriminate H.
Defined.

(** X2.  A crate the script never assigns reads as [undefined], provided
    the crate bears none of the names an object inherits and the script
    has not replaced the prototype of the table (it assigns no
    [__proto__]). *)
Theorem table_lookup_unassigned (l : listing) (crate : string) :
  ¬ In crate (assigned l) →
  ¬ In "__proto__" (assigned l) →
  ¬ In crate object_prototype_names →
  get_prop (implementors_of l) crate = VUndefined.
Proof.
  intros Hk _ _. rewrite implementors_of_object. simpl.
  now rewrite build_get_other.
Qed.

Lemma table_lookup_unassigned_witness :
  ¬ In "vec_map" (assigned Encodable.table) ∧
  ¬ In "__proto__" (assigned Encodable.table) ∧
  ¬ In "vec_map" object_prototype_names ∧
  get_prop (implementors_of Encodable.table) "vec_map" = VUndefined.
Proof.
  assert (H1 : ¬ In "vec_map" (assigned Encodable.table)).
  { simpl. intros [H|[H|[H|[H|[]]]]]; discriminate H. }
  assert (H2 : ¬ In "__proto__" (assigned Encodable.table)).
  { simpl. intros [H|[H|[H|[H|[]]]]]; discriminate H. }
  assert (H3 : ¬ In "vec_map" object_prototype_names).
  { intros H. apply list_elem_of_In in H. revert H.
    apply (bool_decide_unpack _). vm_compute. reflexivity. }
  split; [exact H1|]. split; [exact H2|]. split; [exact H3|].
  exact (table_lookup_unassigned _ _ H1 H2 H3).
Defined.

(** X3.  When the script assigns no [__proto__], the table has one key
    per crate assigned, each once, and no other key. *)
Theorem table_keys (l : listing) :
  ¬ In "__proto__" (assigned l) →
  List.NoDup (own_keys (implementors_of l)) ∧
  (∀ crate, In crate (own_keys (implementors_of l)) ↔ In crate (assigned l)).
Proof.
  intros _. rewrite implementors_of_object. simpl. split.
  - apply build_nodup. constructor.
  - intros crate. rewrite build_in. simpl. unfold assigned. tauto.
Qed.

Lemma table_keys_witness :
  ¬ In "__proto__" (assigned Add.table) ∧
  (In "crypto" (own_keys (implementors_of Add.table)) ↔ In "crypto" (assigned Add.table)).
Proof.
  assert (H : ¬ In "__proto__" (assigned Add.table)).
  { simpl. intros [H|[H|[H|[H|[]]]]]; discriminate H. }
  split; [exact H|]. exact (proj2 (table_keys Add.table H) "crypto").
Defined.

(** X4.  When the script assigns no crate twice and every crate is a plain
    key (not [__proto__], not written in digits), the keys of the table
    are the crates in the order of the assignments. *)
Theorem table_keys_in_order (l : listing) :
  List.NoDup (assigned l) →
  forallb plain_key (assigned l) = true →
  own_keys (implementors_of l) = assigned l.
Proof.
  intros Hnd _. rewrite implementors_of_object. simpl.
  rewrite build_order; [reflexivity | exact Hnd | intros k _ []].
Qed.

Lemma table_keys_in_order_witness :
  List.NoDup (assigned Iterator.table) ∧
  forallb plain_key (assigned Iterator.table) = true ∧
  own_keys (implementors_of Iterator.table) =
  [ "vec_map"; "lazy_static"; "unicode_normalization"; "num_iter"; "libc";
    "rustc_serialize"; "solicit"; "url"; "rand"; "openssl"; "chrono"; "clap";
    "hyper"; "egg_mode" ].
Proof.
  assert (H : List.NoDup (assigned Iterator.table)).
  { apply NoDup_ListNoDup. apply (bool_decide_unpack _). vm_compute. reflexivity. }
  assert (Hp : forallb plain_key (assigned Iterator.table) = true) by reflexivity.
  split; [exact H|]. split; [exact Hp|].
  rewrite (table_keys_in_order _ H Hp). reflexivity.
Defined.

(** ** Running scripts *)

Lemma load_falsy (host : page) (l : listing) (w : gmap string value) :
  ToBoolean (window_get w "register_implementors") = false →
  load host w l = <["pending_implementors" := implementors_of l]> w.
Proof. intros Hf. unfold load. simpl. now rewrite register_stores. Qed.

Lemma load_falsy_keeps_register (host : page) (l : listing) (w : gmap string value) :
  ToBoolean (window_get w "register_implementors") = false →
  window_get (load host w l) "register_implementors" =
  window_get w "register_implementors".
Proof.
  intros Hf. rewrite load_falsy by exact Hf.
  now rewrite window_get_insert_ne by discriminate.
Qed.

Lemma quiet_register (host : page) (implementors : value) (w : gmap string value) :
  calls (trace (register host implementors w)) = [] →
  (ToBoolean (window_get w "register_implementors") = false ∧
   register host implementors w =
   {| final := <["pending_implementors" := implementors]> w;
      trace := [Write "pending_implementors" implementors];
      result := Normal |}) ∨
  register host implementors w = {| final := w; trace := []; result := TypeError |}.
Proof.
  unfold register. destruct (ToBoolean _) eqn:Ht.
  - intros H. right. now apply call_nothing.
  - intros _. left. now split.
Qed.

Lemma quiet_sidebar (host : page) (index : value) (w : gmap string value) :
  calls (trace (run host (SidebarItems index) w)) = [] →
  final (run host (SidebarItems index) w) = w ∧
  trace (run host (SidebarItems index) w) = [] ∧
  (result (run host (SidebarItems index) w) = TypeError ∨
   result (run host (SidebarItems index) w) = ReferenceError).
Proof.
  simpl. unfold call_global. destruct (w !! "initSidebarItems") as [f|].
  - intros H. rewrite (call_nothing _ _ _ _ H). simpl. auto.
  - intros _. simpl. auto.
Qed.

(** X6.  A run in which the script calls no function changes no property
    of the window but [pending_implementors]; such a run of the sidebar
    script changes none at all. *)
Theorem run_frame (host : page) (s : script) (w : gmap string value) (prop : string) :
  calls (trace (run host s w)) = [] →
  prop ≠ "pending_implementors" →
  final (run host s w) !! prop = w !! prop ∧
  (∀ index, s = SidebarItems index → final (run host s w) = w).
Proof.
  intros Hquiet Hne. destruct s as [l|index].
  - split; [|discriminate]. simpl in *.
    destruct (quiet_register _ _ _ Hquiet) as [[_ ->] | ->]; simpl.
    + now apply lookup_insert_ne.
    + reflexivity.
  - destruct (quiet_sidebar _ _ _ Hquiet) as (Hfinal & _).
    split; [now rewrite Hfinal | intros _ _; exact Hfinal].
Qed.

Lemma run_frame_witness :
  let w : gmap string value := {[ "searchIndex" := VObj [] ]} in
  calls (trace (run busy_page (ImplementorListing Add.table) w)) = [] ∧
  final (run busy_page (ImplementorListing Add.table) w) !! "searchIndex" = Some (VObj []).
Proof.
  intros w.
  assert (Hquiet : calls (trace (run busy_page (ImplementorListing Add.table) w)) = [])
    by reflexivity.
  assert (Hne : "searchIndex" ≠ "pending_implementors") by discriminate.
  split; [exact Hquiet|].
  destruct (run_frame busy_page (ImplementorListing Add.table) w "searchIndex" Hquiet Hne)
    as [H _].
  rewrite H. reflexivity.
Defined.

(** X7.  A run in which the script calls no function changes nothing more
    when it is repeated: the window is the one the first run left, and the
    second run does what the first did. *)
Theorem run_twice (host : page) (s : script) (w : gmap string value) :
  calls (trace (run host s w)) = [] →
  final (run host s (final (run host s w))) = final (run host s w) ∧
  effect host s (final (run host s w)) = effect host s w.
Proof.
  intros Hquiet. destruct s as [l|index].
  - simpl in Hquiet. unfold effect. simpl run.
    destruct (quiet_register _ _ _ Hquiet) as [[Hf Hrun] | Hrun]; rewrite Hrun; simpl.
    + assert (Hf' : ToBoolean (window_get
                (<["pending_implementors" := implementors_of l]> w)
                "register_implementors") = false)
        by now rewrite window_get_insert_ne by discriminate.
      rewrite (register_stores host _ _ Hf'). simpl.
      split; [apply insert_insert_eq | reflexivity].
    + now rewrite Hrun.
  - destruct (quiet_sidebar _ _ _ Hquiet) as (Hfinal & _).
    unfold effect. now rewrite !Hfinal.
Qed.

Lemma run_twice_witness :
  let s := ImplementorListing Add.table in
  let w : gmap string value := {[ "register_implementors" := VNull ]} in
  calls (trace (run busy_page s w)) = [] ∧
  final (run busy_page s (final (run busy_page s w))) = final (run busy_page s w).
Proof.
  intros s w.
  assert (Hquiet : calls (trace (run busy_page s w)) = []) by reflexivity.
  split; [exact Hquiet | exact (proj1 (run_twice busy_page s w Hquiet))].
Defined.

(** X8.  Scripts run one after another in a window whose
    [register_implementors] is falsy leave the table of the last one
    pending, and nothing of the others. *)
Theorem pending_holds_last_table
    (host : page) (ls : list listing) (l : listing) (w : gmap string value) :
  ToBoolean (window_get w "register_implementors") = false →
  fold_left (load host) (ls ++ [l]) w =
  <["pending_implementors" := implementors_of l]> w.
Proof.
  intros Hf. rewrite fold_left_app. simpl.
  assert (H : ∃ w', fold_left (load host) ls w = w' ∧
                    ToBoolean (window_get w' "register_implementors") = false ∧
                    ∀ v, <["pending_implementors" := v]> w' = <["pending_implementors" := v]> w).
  { revert w Hf. induction ls as [|l0 ls IH]; intros w Hf; simpl.
    - exists w. auto.
    - destruct (IH (load host w l0)) as (w' & Hw' & Hf' & Hins).
      + now rewrite load_falsy_keeps_register.
      + exists w'. split; [exact Hw'|]. split; [exact Hf'|].
        intros v. rewrite Hins, (load_falsy host l0 w Hf). apply insert_insert_eq. }
  destruct H as (w' & -> & Hf' & Hins).
  rewrite (load_falsy host l w' Hf'). apply Hins.
Qed.

Lemma pending_holds_last_table_witness :
  fold_left (load idle_page) [Iterator.table; Add.table; Encodable.table] ∅ =
  {[ "pending_implementors" := implementors_of Encodable.table ]}.
Proof.
  apply (pending_holds_last_table idle_page [Iterator.table; Add.table] Encodable.table ∅).
  reflexivity.
Defined.

(** X9.  Where the page has installed a function as
    [register_implementors], and the function stays installed whenever it
    is called, every script of a sequence calls it once with its own table
    and writes nothing, wherever the script stands in the sequence. *)
Theorem installed_function_gets_every_table
    (host : page) (name : string) (pre : list listing) (l : listing)
    (w : gmap string value) :
  w !! "register_implementors" = Some (VFun name) →
  (∀ args w', w' !! "register_implementors" = Some (VFun name) →
              (host name args w').1 !! "register_implementors" = Some (VFun name)) →
  trace (run host (ImplementorListing l) (fold_left (load host) pre w)) =
  [Call (VFun name) [implementors_of l]].
Proof.
  intros Hw Hstays.
  assert (H : fold_left (load host) pre w !! "register_implementors" = Some (VFun name)).
  { revert w Hw. induction pre as [|l0 pre IH]; intros w Hw; simpl; [exact Hw|].
    apply IH. unfold load. simpl.
    rewrite (register_calls host _ w name) by (unfold window_get; now rewrite Hw).
    simpl. now apply Hstays. }
  simpl. rewrite (register_calls host _ _ name) by (unfold window_get; now rewrite H).
  reflexivity.
Qed.

Lemma installed_function_gets_every_table_witness :
  let w : gmap string value :=
    {[ "register_implementors" := VFun "register_implementors" ]} in
  trace (run idle_page (ImplementorListing Encodable.table)
           (fold_left (load idle_page) [Iterator.table; Add.table] w)) =
  [Call (VFun "register_implementors") [implementors_of Encodable.table]].
Proof.
  intros w.
  apply (installed_function_gets_every_table idle_page "register_implementors"
           [Iterator.table; Add.table] Encodable.table w).
  - reflexivity.
  - intros args w' Hw'. exact Hw'.
Defined.

(** X10.  A run that does not complete normally has written nothing; and
    if the script called no function either, it left the window as it was
    and the error is the engine's, [TypeError] or [ReferenceError]. *)
Theorem abnormal_run_writes_nothing (host : page) (s : script) (w : gmap string value) :
  result (run host s w) ≠ Normal →
  writes (trace (run host s w)) = [] ∧
  (calls (trace (run host s w)) = [] →
   trace (run host s w) = [] ∧ final (run host s w) = w ∧
   (result (run host s w) = TypeError ∨ result (run host s w) = ReferenceError)).
Proof.
  intros Hthrow. destruct s as [l|index].
  - simpl in *. unfold register in *. destruct (ToBoolean _).
    + split; [now destruct (window_get w "register_implementors")|].
      intros Hquiet. rewrite (call_nothing _ _ _ _ Hquiet). simpl. auto.
    + now contradict Hthrow.
  - split.
    + simpl. unfold call_global. destruct (w !! "initSidebarItems") as [f|]; [|reflexivity].
      now destruct f.
    + intros Hquiet. destruct (quiet_sidebar _ _ _ Hquiet) as (Hf & Ht & Hr). auto.
Qed.

Lemma abnormal_run_writes_nothing_witness :
  let w : gmap string value := {[ "initSidebarItems" := VFun "initSidebarItems" ]} in
  result (run busy_page (SidebarItems Sidebar.items) w) = Thrown (VStr "no sidebar") ∧
  writes (trace (run busy_page (SidebarItems Sidebar.items) w)) = [].
Proof.
  intros w. split; [reflexivity|].
  apply (abnormal_run_writes_nothing busy_page (SidebarItems Sidebar.items) w).
  discriminate.
Defined.

(** X11.  Whatever a script calls is the function the window holds under
    the script's entry point, and the script passes it one argument; a
    script that calls makes that one call and writes nothing itself, and
    the window it leaves and the way it completes are the function's. *)
Theorem calls_only_entry_point
    (host : page) (s : script) (w : gmap string value) (f : value) (args : list value) :
  In (f, args) (calls (trace (run host s w))) →
  w !! entry_point s = Some f ∧ IsCallable f = true ∧ length args = 1 ∧
  calls (trace (run host s w)) = [(f, args)] ∧ writes (trace (run host s w)) = [] ∧
  ∃ name, f = VFun name ∧
          final (run host s w) = (host name args w).1 ∧
          result (run host s w) = (host name args w).2.
Proof.
  intros Hin. destruct s as [l|index]; simpl in *.
  - unfold register, window_get in *.
    destruct (w !! "register_implementors") as [g|] eqn:Hg; simpl in *.
    + destruct (ToBoolean g); [|destruct Hin].
      destruct g; simpl in *; try contradiction.
      destruct Hin as [[= <- <-]|[]]. eauto 10.
    + destruct Hin.
  - unfold call_global in *. destruct (w !! "initSidebarItems") as [g|]; [|destruct Hin].
    destruct g; simpl in *; try contradiction.
    destruct Hin as [[= <- <-]|[]]. eauto 10.
Qed.

Lemma calls_only_entry_point_witness :
  let w : gmap string value := {[ "initSidebarItems" := VFun "initSidebarItems" ]} in
  In (VFun "initSidebarItems", [Sidebar.items])
     (calls (trace (run busy_page (SidebarItems Sidebar.items) w))) ∧
  writes (trace (run busy_page (SidebarItems Sidebar.items) w)) = [].
Proof.
  intros w.
  assert (H : In (VFun "initSidebarItems", [Sidebar.items])
                (calls (trace (run busy_page (SidebarItems Sidebar.items) w))))
    by (vm_compute; left; reflexivity).
  split; [exact H|].
  destruct (calls_only_entry_point _ _ _ _ _ H) as (_ & _ & _ & _ & Hwrites & _).
  exact Hwrites.
Defined.

(** X12.  The sidebar script, window by window: where [initSidebarItems]
    is unbound it throws [ReferenceError]; where it is bound to what is
    no function (a property set to [undefined] included) it throws
    [TypeError]; in both cases it leaves the window as it was.  Where it
    is bound to a function the script calls it once with the index, and
    the window it leaves and the way it completes are the function's.  The
    script itself never writes. *)
Theorem sidebar_outcome (host : page) (index : value) (w : gmap string value) :
  let o := run host (SidebarItems index) w in
  writes (trace o) = [] ∧
  (w !! "initSidebarItems" = None →
     trace o = [] ∧ final o = w ∧ result o = ReferenceError) ∧
  (∀ f, w !! "initSidebarItems" = Some f → IsCallable f = false →
        trace o = [] ∧ final o = w ∧ result o = TypeError) ∧
  (∀ name, w !! "initSidebarItems" = Some (VFun name) →
        trace o = [Call (VFun name) [index]] ∧
        final o = (host name [index] w).1 ∧ result o = (host name [index] w).2).
Proof.
  simpl. unfold call_global.
  destruct (w !! "initSidebarItems") as [g|] eqn:Hg.
  - split; [now destruct g|]. split; [discriminate|]. split.
    + intros f [= <-] Hf. destruct g; try discriminate Hf; simpl; auto.
    + intros name [= ->]. simpl. auto.
  - simpl. split; [reflexivity|]. split; [auto|].
    split; intros ? Hf; discriminate Hf.
Qed.

Lemma sidebar_outcome_witness :
  let w : gmap string value := {[ "initSidebarItems" := VUndefined ]} in
  result (run busy_page (SidebarItems Sidebar.items) w) = TypeError.
Proof.
  intros w.
  destruct (sidebar_outcome busy_page Sidebar.items w) as (_ & _ & H & _).
  now destruct (H VUndefined eq_refl eq_refl) as (_ & _ & Hr).
Defined.

(** ** The entries of the tables *)

Lemma listings_are : listings = [Iterator.table; Add.table; Encodable.table].
Proof. reflexivity. Qed.

Lemma all_name_their_symbols :
  forallb (fun a : string * entry => forallb names_its_symbol a.2) listed_entries = true.
Proof. vm_compute. reflexivity. Qed.

Lemma all_read_as_impl :
  forallb (fun a : string * entry => reads_as_impl a.2) listed_entries = true.
Proof. vm_compute. reflexivity. Qed.

Lemma all_escaped :
  forallb (fun l => forallb (forallb (escaped (quote l))) (entries_of l)) listings = true.
Proof. vm_compute. reflexivity. Qed.

Lemma all_under_crate :
  forallb
    (fun a : string * entry =>
       match implementing_type a.2 with
       | Some p =>
           String.eqb (crate_of p) a.1 ||
           (String.eqb a.1 "openssl" &&
            existsb (String.eqb (crate_of p)) ["std"; "collections"; "rustc_unicode"; "alloc"]) ||
           (String.eqb a.1 "hyper" && String.eqb (crate_of p) "url")
       | None => false
       end) listed_entries = true.
Proof. vm_compute. reflexivity. Qed.

Lemma one_trait (l : listing) (t : string) :
  forallb (fun e => bool_decide (implemented_trait e = Some t)) (entries_of l) = true →
  Forall (fun e => implemented_trait e = Some t) (entries_of l).
Proof.
  intros H. apply List.Forall_forall. intros e He.
  apply (proj1 (forallb_forall _ _) H) in He. now apply bool_decide_eq_true_1 in He.
Qed.

(** X13.  Every entry of a table implements the trait of the table: the
    86 entries of the first script [Iterator], the 13 of the second [Add],
    the 15 of the third [Encodable]. *)
Theorem entries_implement_one_trait :
  Forall (fun e => implemented_trait e = Some "core::iter::iterator::Iterator")
    (entries_of Iterator.table) ∧
  Forall (fun e => implemented_trait e = Some "core::ops::arith::Add")
    (entries_of Add.table) ∧
  Forall (fun e => implemented_trait e = Some "rustc_serialize::serialize::Encodable")
    (entries_of Encodable.table) ∧
  map (fun l => length (entries_of l)) listings = [86; 13; 15].
Proof.
  split; [|split; [|split]];
    [apply one_trait; vm_compute; reflexivity ..| reflexivity].
Qed.

(** X14.  Every titled anchor of every entry names its symbol: its text is
    the last segment of the path in its title, the title is that path
    (after the class of the anchor where rustdoc wrote one), and the link
    ends in [module/class.Name.html], the page of the item, unless the
    anchor is an associated type. *)
Theorem anchors_name_their_symbols (crate : string) (e : entry) (m : markup) :
  In (crate, e) listed_entries → In m e → names_its_symbol m = true.
Proof.
  intros He Hm.
  pose proof (proj1 (forallb_forall _ _) all_name_their_symbols _ He) as H.
  exact (proj1 (forallb_forall _ _) H _ Hm).
Qed.

Lemma anchors_name_their_symbols_witness :
  names_its_symbol
    (Anchor "struct" "tweetr/ops/struct.User.html" (Some "struct tweetr::ops::User") "User")
  = true.
Proof.
  eapply anchors_name_their_symbols.
  - exact (nth_error_In _ _ tweetr_user_listed).
  - simpl. auto.
Defined.

(** X15.  Every entry reads [impl ... for ...]: it opens with text that
    starts with [impl], holds the word [for] in one text piece only, and
    closes every [span] it opens. *)
Theorem entries_read_as_impl (crate : string) (e : entry) :
  In (crate, e) listed_entries → reads_as_impl e = true.
Proof.
  intros He. exact (proj1 (forallb_forall _ _) all_read_as_impl _ He).
Qed.

Lemma entries_read_as_impl_witness :
  ∃ e, In ("tweetr", e) listed_entries ∧ reads_as_impl e = true.
Proof.
  eexists. split; [exact (nth_error_In _ _ tweetr_user_listed)|].
  exact (entries_read_as_impl _ _ (nth_error_In _ _ tweetr_user_listed)).
Defined.

(** X16.  No entry breaks out of its markup: no text piece and no anchor
    text holds an angle bracket, and no attribute value holds the quote
    character its script delimits attributes with. *)
Theorem entries_escaped (l : listing) (e : entry) (m : markup) :
  In l listings → In e (entries_of l) → In m e → escaped (quote l) m = true.
Proof.
  intros Hl He Hm.
  pose proof (proj1 (forallb_forall _ _) all_escaped _ Hl) as H1.
  pose proof (proj1 (forallb_forall _ _) H1 _ He) as H2.
  exact (proj1 (forallb_forall _ _) H2 _ Hm).
Qed.

Lemma entries_escaped_witness :
  escaped "'" (Text "impl&lt;'a,&nbsp;V&gt; ") = true.
Proof.
  apply (entries_escaped Iterator.table
           [ Text "impl&lt;'a,&nbsp;V&gt; ";
             Anchor "trait" "https://doc.rust-lang.org/nightly/core/iter/iterator/trait.Iterator.html" (Some "core::iter::iterator::Iterator") "Iterator";
             Text " for ";
             Anchor "struct" "vec_map/struct.Iter.html" (Some "vec_map::Iter") "Iter";
             Text "&lt;'a,&nbsp;V&gt;" ]).
  - rewrite listings_are. simpl. auto.
  - apply (nth_error_In _ 0). vm_compute. reflexivity.
  - simpl. auto.
Defined.

(** X17.  An entry is listed under the crate of its implementing type,
    with two exceptions: [openssl] also lists iterators of [std],
    [collections], [rustc_unicode] and [alloc], and [hyper] also lists
    iterators of [url].  Each of these does occur. *)
Theorem listed_under_crate :
  (∀ crate e, In (crate, e) listed_entries →
     ∃ p, implementing_type e = Some p ∧
          (crate_of p = crate ∨
           (crate = "openssl" ∧
            In (crate_of p) ["std"; "collections"; "rustc_unicode"; "alloc"]) ∨
           (crate = "hyper" ∧ crate_of p = "url"))) ∧
  foreign_crates "openssl" = ["std"; "rustc_unicode"; "alloc"; "collections"] ∧
  foreign_crates "hyper" = ["url"].
Proof.
  split; [|split; vm_compute; reflexivity].
  intros crate e He.
  pose proof (proj1 (forallb_forall _ _) all_under_crate _ He) as H.
  simpl in H. destruct (implementing_type e) as [p|]; [|discriminate H].
  exists p. split; [reflexivity|].
  apply orb_true_iff in H. destruct H as [H|H].
  - apply orb_true_iff in H. destruct H as [H|H].
    + left. now apply String.eqb_eq.
    + right. left. apply andb_true_iff in H. destruct H as [Hc Hp].
      split; [now apply String.eqb_eq|].
      repeat (apply orb_true_iff in Hp; destruct Hp as [Hp|Hp]);
        try (apply String.eqb_eq in Hp; rewrite Hp; simpl; tauto).
      discriminate Hp.
  - right. right. apply andb_true_iff in H. destruct H as [Hc Hp].
    split; now apply String.eqb_eq.
Qed.
